(** * Rolodex: the SSH authentication chain and session orchestration

  A shallow embedding of the Go package [internal/ssh] of rolodex
  ([StartSession] and [buildAuthMethods], [TryPasswordAuth], [TrySSHAgent],
  identity.go, keyring.go) together with the part of [internal/logger] it
  calls.

  Go strings are byte sequences: they are modelled as [string], whose
  characters are the 8-bit [ascii] values.  Go's [int], [uint16] and
  [rune] are modelled as [Z].  Everything the package obtains from
  outside the process (environment, file system, key parser, OS keyring,
  network, terminal) is read from an [Env] record, one field per library
  call, and every such call is recorded in the trace of the [World]. *)

From Stdlib Require Import ZArith Lia Ascii String List Bool.
From stdpp Require Import base list strings pretty.

Local Open Scope Z_scope.

(** ** Go strings *)

Module GoString.

(** [[]byte(s)] *)
Definition bytes (s : string) : list Z :=
  (fun c => Z.of_N (N_of_ascii c)) <$> list_ascii_of_string s.

(** [string(b)] for a byte slice [b] *)
Definition of_bytes (b : list Z) : string :=
  string_of_list_ascii ((fun z => ascii_of_N (Z.to_N z)) <$> b).

(** [len(s)] *)
Definition len (s : string) : Z := Z.of_nat (String.length s).

(** [s[i]]; the callers below only index inside the string. *)
Definition index (s : string) (i : Z) : Z :=
  default 0 (bytes s !! Z.to_nat i).

(** [s[i:]] *)
Definition from (s : string) (i : nat) : string :=
  String.substring i (String.length s - i) s.

(** [strings.HasPrefix(s, prefix)] *)
Definition HasPrefix (s prefix : string) : bool := String.prefix prefix s.

(** [strings.Contains(s, substr)] *)
Fixpoint Contains (s substr : string) : bool :=
  String.prefix substr s ||
  match s with
  | EmptyString => false
  | String _ s' => Contains s' substr
  end.

(** [strings.Join(elems, sep)] *)
Fixpoint Join (elems : list string) (sep : string) : string :=
  match elems with
  | [] => ""
  | [e] => e
  | e :: rest => e +:+ sep +:+ Join rest sep
  end.

End GoString.

(** ** unicode/utf16 and the rune-to-string conversion

  [utf16.Decode] and [string(runes)] belong to the Go standard library; the
  keyring code calls them, so they are transcribed here. *)

Module utf16.

Definition surr1 : Z := 0xd800.
Definition surr2 : Z := 0xdc00.
Definition surr3 : Z := 0xe000.
Definition surrSelf : Z := 0x10000.
Definition replacementChar : Z := 0xFFFD.
Definition maxRune : Z := 0x10FFFF.

(** [utf16.DecodeRune] on an already validated surrogate pair *)
Definition DecodeRune (r1 r2 : Z) : Z :=
  Z.lor (Z.shiftl (r1 - surr1) 10) (r2 - surr2) + surrSelf.

(** [utf16.Decode]: the index loop consumes one unit, or two for a valid
    surrogate pair. *)
Fixpoint Decode (s : list Z) : list Z :=
  match s with
  | [] => []
  | r :: rest =>
      if (r <? surr1) || (surr3 <=? r) then r :: Decode rest
      else
        match rest with
        | r2 :: rest' =>
            if (surr1 <=? r) && (r <? surr2) && (surr2 <=? r2) && (r2 <? surr3)
            then DecodeRune r r2 :: Decode rest'
            else replacementChar :: Decode rest
        | [] => [replacementChar]
        end
  end.

(** UTF-8 encoding of one rune, as [string(runes)] appends it; a rune that
    is not a Unicode scalar value is written as U+FFFD. *)
Definition encodeRune (r : Z) : list Z :=
  if (r <? 0) || (maxRune <? r) || ((surr1 <=? r) && (r <? surr3))
  then [0xEF; 0xBF; 0xBD]
  else if r <=? 0x7F then [r]
  else if r <=? 0x7FF then
    [Z.lor 0xC0 (Z.shiftr r 6); Z.lor 0x80 (Z.land r 0x3F)]
  else if r <=? 0xFFFF then
    [Z.lor 0xE0 (Z.shiftr r 12);
     Z.lor 0x80 (Z.land (Z.shiftr r 6) 0x3F);
     Z.lor 0x80 (Z.land r 0x3F)]
  else
    [Z.lor 0xF0 (Z.shiftr r 18);
     Z.lor 0x80 (Z.land (Z.shiftr r 12) 0x3F);
     Z.lor 0x80 (Z.land (Z.shiftr r 6) 0x3F);
     Z.lor 0x80 (Z.land r 0x3F)].

(** [string(runes)] *)
Definition string_of_runes (runes : list Z) : string :=
  GoString.of_bytes (concat (encodeRune <$> runes)).

End utf16.

(** ** Values exchanged with the libraries *)

(** Go's [error] values, as far as the package tells them apart: the type
    assertion in [StartSession] singles out [*ssh.ServerAuthError], whose
    field [Errors] holds the per-method errors (kept here by their text). *)
Inductive error :=
| errorString (msg : string)
| ServerAuthError (Errors : list string).

(** [err.Error()] *)
Definition Error (e : error) : string :=
  match e with
  | errorString msg => msg
  | ServerAuthError errs => "[" +:+ GoString.Join errs ", " +:+ "]"
  end.

(** A library call returning [(value, error)]. *)
Inductive res (A : Type) :=
| Success (a : A)
| Failure (err : error).
Arguments Success {A} a.
Arguments Failure {A} err.

Module ssh.

(** [ssh.Signer], a parsed private key. *)
Inductive Signer := ParsedKey (fingerprint : string).

(** [ssh.AuthMethod], by the constructor of [golang.org/x/crypto/ssh] that
    built it. *)
Inductive AuthMethod :=
| PublicKeysCallback (network socket : string)
| PublicKeys (signer : Signer)
| Password (secret : string)
| KeyboardInteractive
    (challenge : string -> string -> list string -> list bool ->
                 list string * option error).

(** [ssh.TerminalModes] *)
Definition TerminalModes := list (Z * Z).
Definition ECHO : Z := 53.
Definition TTY_OP_ISPEED : Z := 128.
Definition TTY_OP_OSPEED : Z := 129.

End ssh.

(** [term.State]: the mode of the local terminal. *)
Record TermState := { raw : bool; settings : N }.

(** Authentication configuration options *)
Record AuthConfig := {
  SSHAgent : bool;
  IdentityFile : string;
  IdentityPassphrase : string;
  KeyringService : string;
  KeyringAccount : string;
  Password : string
}.

(** ** The outside world *)

(** One event per call that leaves the package. *)
Inductive Event :=
| EvLog (line : string)
| EvGetenv (name : string)
| EvNetDial (network address : string)
| EvNetDialTimeout (network address : string) (seconds : Z)
| EvConnClose
| EvUserHomeDir
| EvReadFile (path : string)
| EvParsePrivateKey (keyData : string)
| EvParsePrivateKeyWithPassphrase (keyData passphrase : string)
| EvKeyringGet (service account : string)
| EvSSHDial (address user : string) (methods : nat) (seconds : Z)
| EvClientClose
| EvNewSession
| EvSessionClose
| EvMakeRaw
| EvRestore (oldState : TermState)
| EvGetSize
| EvRequestPty (term : string) (h w : Z) (modes : ssh.TerminalModes)
| EvShell
| EvWait.

(** What the libraries answer during one connection attempt. *)
Record Env := {
  os_Getenv : string -> string;
  net_Dial : string -> string -> option error;
  os_UserHomeDir : res string;
  filepath_Join : string -> string -> string;
  os_ReadFile : string -> res string;
  ssh_ParsePrivateKey : string -> res ssh.Signer;
  ssh_ParsePrivateKeyWithPassphrase : string -> string -> res ssh.Signer;
  keyring_Get : string -> string -> res string;
  net_DialTimeout : string -> string -> option error;
  ssh_Dial : string -> string -> list ssh.AuthMethod -> option error;
  client_NewSession : option error;
  term_MakeRaw : option error;
  term_GetSize : res (Z * Z);
  session_RequestPty : Z -> Z -> option error;
  session_Shell : option error
}.

(** The mutable state a call can touch: the package-level [fileLogger] of
    the logger ([true] when it is not nil), the calls made so far, and the
    mode of the local terminal. *)
Record World := {
  fileLogger : bool;
  trace : list Event;
  terminal : TermState
}.

(** ** State passing *)

Definition M (A : Type) : Type := World -> A * World.

Definition ret {A} (a : A) : M A := fun w => (a, w).

Definition bind {A B} (m : M A) (k : A -> M B) : M B :=
  fun w => let (a, w') := m w in k a w'.

Declare Scope go_scope.
Delimit Scope go_scope with go.
Notation "x <- m ; k" := (bind m (fun x => k))
  (at level 100, m at next level, right associativity) : go_scope.
Notation "m ;; k" := (bind m (fun _ => k))
  (at level 100, right associativity) : go_scope.
Local Open Scope go_scope.

(** Record a call. *)
Definition emit (e : Event) : M unit :=
  fun w => (tt, {| fileLogger := fileLogger w;
                   trace := trace w ++ [e];
                   terminal := terminal w |}).

(** [defer cleanup] followed by the rest of the function body: the cleanup
    runs when the body returns, whatever it returns. *)
Definition defer {A} (cleanup : M unit) (body : M A) : M A :=
  r <- body; cleanup;; ret r.

(** ** internal/logger *)

Module logger.

(** [logger.Printf]: a no-op while [fileLogger] is nil. *)
Definition Printf (line : string) : M unit :=
  fun w => if fileLogger w then emit (EvLog line) w else (tt, w).

(** [logger.Fatal]: logs the message and returns it as an error. *)
Definition Fatal (msg : string) : M error :=
  Printf ("FATAL: " +:+ msg);; ret (errorString msg).

(** [logger.Fatalf], applied to the already formatted message. *)
Definition Fatalf (msg : string) : M error :=
  Printf ("FATAL: " +:+ msg);; ret (errorString msg).

End logger.

(** ** strconv and the fmt verbs used by the package *)

Module strconv.

(** [strconv.Itoa] *)
Definition Itoa (i : Z) : string := pretty i.

End strconv.


Module fmt.

(** [%d] *)
Definition d (n : Z) : string := pretty n.

(** The newline of the format strings *)
Definition nl : string := String (ascii_of_nat 10) "".

(** [%v] of a [bool] *)
Definition v_bool (b : bool) : string := if b then "true" else "false".

(** [%v] of a [[]error] *)
Definition v_errors (errs : list string) : string :=
  "[" +:+ GoString.Join errs " " +:+ "]".

(** [%v] of an [AuthConfig] *)
Definition v_AuthConfig (c : AuthConfig) : string :=
  "{" +:+ GoString.Join
            [v_bool (SSHAgent c); IdentityFile c; IdentityPassphrase c;
             KeyringService c; KeyringAccount c; Password c] " " +:+ "}".

End fmt.

(** ** The credential sources and the session (package [internal/ssh]) *)

Section Package.

Variable env : Env.

(** A library call: recorded, then answered by the environment. *)
Definition call {A} (e : Event) (answer : A) : M A := emit e;; ret answer.

(** [for i := range s { s[i] = value(i) }]: the indices of [s] are visited
    in order and each visit assigns one element. *)
Definition for_range_assign {A} (value : nat -> A) (s : list A) : list A :=
  foldl (fun s i => <[i := value i]> s) s (seq 0 (length s)).

(** *** The Password source *)

(** The callback handed to [ssh.KeyboardInteractive]: [answers] is made as
    long as [questions] and the loop runs over the indices of [questions]. *)
Definition challenge (password : string)
    (user instruction : string) (questions : list string) (echos : list bool)
    : list string * option error :=
  let answers := replicate (length questions) "" in
  let answers :=
    foldl (fun answers i => <[i := password]> answers) answers
      (seq 0 (length questions)) in
  (answers, None).

(** Adds password and keyboard-interactive authentication methods;
    password is tried first, keyboard-interactive as fallback for PAM. *)
Definition TryPasswordAuth (password : string) : M (list ssh.AuthMethod) :=
  logger.Printf
    "Adding password and keyboard-interactive authentication methods";;
  let authMethods := [] in
  let authMethods := authMethods ++ [ssh.Password password] in
  let authMethods :=
    authMethods ++ [ssh.KeyboardInteractive (challenge password)] in
  ret authMethods.

(** *** The Agent source *)

(** Attempts to connect to the SSH agent. *)
Definition TrySSHAgent : M (option ssh.AuthMethod) :=
  socket <- call (EvGetenv "SSH_AUTH_SOCK") (os_Getenv env "SSH_AUTH_SOCK");
  if String.eqb socket "" then
    logger.Printf "SSH agent not available (SSH_AUTH_SOCK not set)";;
    ret None
  else
    let network :=
      if (0 <? GoString.len socket) && (GoString.index socket 0 =? 92)
      then "pipe" else "unix" in
    r <- call (EvNetDial network socket) (net_Dial env network socket);
    match r with
    | Some err =>
        logger.Printf ("Failed to connect to SSH agent: " +:+ Error err);;
        ret None
    | None =>
        logger.Printf "Successfully connected to SSH agent";;
        ret (Some (ssh.PublicKeysCallback network socket))
    end.

(** *** The IdentityFile source (identity.go) *)

(** The [~] expansion at the head of [TryIdentityFile]; [None] is its early
    return. *)
Definition expandHome (identityFile : string) : M (option string) :=
  if GoString.HasPrefix identityFile "~" then
    h <- call EvUserHomeDir (os_UserHomeDir env);
    match h with
    | Failure err =>
        logger.Printf ("Failed to get home directory: " +:+ Error err);;
        ret None
    | Success home =>
        ret (Some (filepath_Join env home (GoString.from identityFile 1)))
    end
  else ret (Some identityFile).

(** Attempts to load and parse an SSH private key file; returns nil
    ([None]) if the file cannot be loaded or parsed. *)
Definition TryIdentityFile (identityFile passphrase : string)
    : M (option ssh.AuthMethod) :=
  if String.eqb identityFile "" then ret None
  else
    p <- expandHome identityFile;
    match p with
    | None => ret None
    | Some identityFile =>
      k <- call (EvReadFile identityFile) (os_ReadFile env identityFile);
      match k with
      | Failure err =>
          logger.Printf ("Failed to read identity file " +:+ identityFile
                         +:+ ": " +:+ Error err);;
          ret None
      | Success keyData =>
        s <- call (EvParsePrivateKey keyData) (ssh_ParsePrivateKey env keyData);
        match s with
        | Success signer =>
            logger.Printf ("Successfully loaded identity file: "
                           +:+ identityFile);;
            ret (Some (ssh.PublicKeys signer))
        | Failure err =>
          if negb (String.eqb passphrase "") then
            s' <- call (EvParsePrivateKeyWithPassphrase keyData passphrase)
                    (ssh_ParsePrivateKeyWithPassphrase env keyData passphrase);
            match s' with
            | Failure err' =>
                logger.Printf ("Failed to parse identity file " +:+ identityFile
                               +:+ " with passphrase: " +:+ Error err');;
                ret None
            | Success signer =>
                logger.Printf ("Successfully loaded encrypted identity file: "
                               +:+ identityFile);;
                ret (Some (ssh.PublicKeys signer))
            end
          else if GoString.Contains (Error err) "encrypted"
                  || GoString.Contains (Error err) "passphrase" then
            logger.Printf ("Identity file " +:+ identityFile
                           +:+ " is encrypted but no passphrase provided");;
            ret None
          else
            logger.Printf ("Failed to parse identity file " +:+ identityFile
                           +:+ ": " +:+ Error err);;
            ret None
        end
      end
    end.

(** *** The Keyring source (keyring.go) *)

(** [keyring.ErrNotFound] *)
Definition ErrNotFound : error := errorString "secret not found in keyring".

(** [uint16(passwordBytes[i*2]) | uint16(passwordBytes[i*2+1])<<8] *)
Definition le16 (passwordBytes : list Z) (i : nat) : Z :=
  Z.lor (default 0 (passwordBytes !! (i * 2)%nat) mod 65536)
        (Z.shiftl (default 0 (passwordBytes !! (i * 2 + 1)%nat) mod 65536) 8
         mod 65536).

(** Retrieves a password from the OS keyring. *)
Definition GetPasswordFromKeyring (service account : string)
    : M (string * option error) :=
  if String.eqb service "" || String.eqb account "" then
    ret ("", Some ErrNotFound)
  else
    r <- call (EvKeyringGet service account) (keyring_Get env service account);
    match r with
    | Failure err =>
        logger.Printf ("Failed to retrieve password from keyring for "
                       +:+ service +:+ "/" +:+ account +:+ ": " +:+ Error err);;
        ret ("", Some err)
    | Success password =>
        let done (password : string) : M (string * option error) :=
          logger.Printf ("Successfully retrieved password from keyring for "
                         +:+ service +:+ "/" +:+ account);;
          ret (password, None) in
        (* Check if password is UTF-16LE encoded *)
        if (1 <? GoString.len password) && (GoString.index password 1 =? 0)
        then
          let passwordBytes := GoString.bytes password in
          if negb (Z.rem (Z.of_nat (length passwordBytes)) 2 =? 0) then
            ret (password, None) (* Odd length, can't be valid UTF-16LE *)
          else
            let n := Z.to_nat (Z.quot (Z.of_nat (length passwordBytes)) 2) in
            let utf16Slice := replicate n 0 in
            let utf16Slice :=
              for_range_assign (le16 passwordBytes) utf16Slice in
            let runes := utf16.Decode utf16Slice in
            done (utf16.string_of_runes runes)
        else done password
    end.

(** *** The resolver and the session *)

(** Creates authentication methods in priority order. *)
Definition buildAuthMethods (config : AuthConfig) : M (list ssh.AuthMethod) :=
  let authMethods : list ssh.AuthMethod := [] in
  logger.Printf ("Building authentication methods for "
                 +:+ fmt.v_AuthConfig config);;
  authMethods <-
    (if SSHAgent config then
       agentAuth <- TrySSHAgent;
       match agentAuth with
       | Some agentAuth => ret (authMethods ++ [agentAuth])
       | None => ret authMethods
       end
     else ret authMethods);
  authMethods <-
    (if negb (String.eqb (IdentityFile config) "") then
       keyAuth <- TryIdentityFile (IdentityFile config)
                    (IdentityPassphrase config);
       match keyAuth with
       | Some keyAuth => ret (authMethods ++ [keyAuth])
       | None => ret authMethods
       end
     else ret authMethods);
  authMethods <-
    (if negb (String.eqb (KeyringService config) "")
        && negb (String.eqb (KeyringAccount config) "") then
       r <- GetPasswordFromKeyring (KeyringService config)
              (KeyringAccount config);
       let '(password, err) := r in
       match err with
       | None =>
           if negb (String.eqb password "") then
             more <- TryPasswordAuth password;
             ret (authMethods ++ more)
           else ret authMethods
       | Some _ => ret authMethods
       end
     else ret authMethods);
  authMethods <-
    (if negb (String.eqb (Password config) "") then
       more <- TryPasswordAuth (Password config);
       ret (authMethods ++ more)
     else ret authMethods);
  logger.Printf ("Total authentication methods configured: "
                 +:+ fmt.d (Z.of_nat (length authMethods)));;
  ret authMethods.

(** [term.MakeRaw(fd)]: on success the terminal is raw and the mode it had
    is returned; on failure the terminal is left as it was. *)
Definition MakeRaw : M (res TermState) :=
  emit EvMakeRaw;;
  fun w =>
    match term_MakeRaw env with
    | Some err => (Failure err, w)
    | None =>
        (Success (terminal w),
         {| fileLogger := fileLogger w;
            trace := trace w;
            terminal := {| raw := true; settings := settings (terminal w) |} |})
    end.

(** [term.Restore(fd, oldState)] *)
Definition Restore (oldState : TermState) : M unit :=
  emit (EvRestore oldState);;
  fun w => (tt, {| fileLogger := fileLogger w;
                   trace := trace w;
                   terminal := oldState |}).

(** [return logger.Fatalf(...)] *)
Definition fail (msg : string) : M (option error) :=
  e <- logger.Fatalf msg; ret (Some e).

(** Connects to an SSH server using multiple authentication methods with
    priority; returns an error if the connection fails. *)
Definition StartSession (host : string) (port : Z) (user : string)
    (authConfig : AuthConfig) : M (option error) :=
  logger.Printf ("Attempting connection to " +:+ user +:+ "@" +:+ host
                 +:+ ":" +:+ fmt.d port);;
  let address := host +:+ ":" +:+ strconv.Itoa port in
  logger.Printf ("Testing TCP connection to " +:+ address +:+ "...");;
  r <- call (EvNetDialTimeout "tcp" address 10)
         (net_DialTimeout env "tcp" address);
  match r with
  | Some err =>
      fail ("Cannot reach " +:+ address +:+ " - TCP connection failed: "
            +:+ Error err +:+ fmt.nl
            +:+ "Check firewall, DNS, and network connectivity")
  | None =>
    emit EvConnClose;;
    logger.Printf "TCP connection successful, attempting SSH handshake...";;
    authMethods <- buildAuthMethods authConfig;
    if (length authMethods =? 0)%nat then
      e <- logger.Fatal "No authentication method available. Configure at least one: ssh_agent, identity_file, keyring, or password.";
      ret (Some e)
    else
      r <- call (EvSSHDial address user (length authMethods) 30)
             (ssh_Dial env address user authMethods);
      match r with
      | Some (ServerAuthError Errors as err) =>
          logger.Printf ("Authentication methods we tried: "
                         +:+ fmt.d (Z.of_nat (length authMethods))
                         +:+ " methods");;
          fail ("SSH authentication failed!" +:+ fmt.nl
                +:+ "Errors from server: " +:+ fmt.v_errors Errors +:+ fmt.nl
                +:+ "Full error: " +:+ Error err)
      | Some err => fail ("SSH connection failed: " +:+ Error err)
      | None =>
        defer (emit EvClientClose) (
        logger.Printf "SSH connection established successfully!";;
        r <- call EvNewSession (client_NewSession env);
        match r with
        | Some err => fail ("Failed to create session: " +:+ Error err)
        | None =>
          defer (emit EvSessionClose) (
          (* Put the local terminal into raw mode *)
          r <- MakeRaw;
          match r with
          | Failure err => fail ("Failed to set raw mode: " +:+ Error err)
          | Success oldState =>
            defer (Restore oldState) ( (* always restore *)
            sz <- call EvGetSize (term_GetSize env);
            let '(width, height) :=
              match sz with
              | Success (width, height) => (width, height)
              | Failure _ => (80, 24)
              end in
            let modes : ssh.TerminalModes :=
              [(ssh.ECHO, 1); (ssh.TTY_OP_ISPEED, 14400);
               (ssh.TTY_OP_OSPEED, 14400)] in
            r <- call (EvRequestPty "xterm-256color" height width modes)
                   (session_RequestPty env height width);
            match r with
            | Some err =>
                fail ("Request for pseudo terminal failed: " +:+ Error err)
            | None =>
              r <- call EvShell (session_Shell env);
              match r with
              | Some err => fail ("Failed to start shell: " +:+ Error err)
              | None => emit EvWait;; ret None
              end
            end)
          end)
        end)
      end
  end.

End Package.

(** ** Vocabulary of the properties *)

(** The world with the same logger and terminal after the calls [t]. *)
Definition extend (w : World) (t : list Event) : World :=
  {| fileLogger := fileLogger w;
     trace := trace w ++ t;
     terminal := terminal w |}.

(** The events [es] as they reach the trace: log lines are dropped while
    [fileLogger] is nil. *)
Definition recorded (w : World) (es : list Event) : list Event :=
  List.filter
    (fun e => match e with EvLog _ => fileLogger w | _ => true end) es.

(** [m] always returns [a], whatever the state it is called in. *)
Definition yields {A} (m : M A) (a : A) : Prop := forall w, fst (m w) = a.

(** [m] only performs calls satisfying [P]: it leaves the logger and the
    terminal alone, and neither its result nor its calls depend on the
    calls made before. *)
Definition io_only {A} (P : Event -> bool) (m : M A) : Prop :=
  forall b, exists a t,
    forallb P t = true /\
    forall tr tm,
      m {| fileLogger := b; trace := tr; terminal := tm |}
      = (a, {| fileLogger := b; trace := tr ++ t; terminal := tm |}).

(** Calls a credential source may make. *)
Definition source_event (e : Event) : bool :=
  match e with
  | EvLog _ | EvGetenv _ | EvNetDial _ _ | EvUserHomeDir | EvReadFile _
  | EvParsePrivateKey _ | EvParsePrivateKeyWithPassphrase _ _
  | EvKeyringGet _ _ => true
  | _ => false
  end.

(** Calls that open a connection to the SSH server: the reachability probe
    and the SSH dial. *)
Definition server_dial (e : Event) : bool :=
  match e with
  | EvNetDialTimeout _ _ _ | EvSSHDial _ _ _ _ => true
  | _ => false
  end.

(** Any network dial, the one to the local agent socket included. *)
Definition network_call (e : Event) : bool :=
  match e with
  | EvNetDial _ _ | EvNetDialTimeout _ _ _ | EvSSHDial _ _ _ _ => true
  | _ => false
  end.

Definition is_MakeRaw (e : Event) : bool :=
  match e with EvMakeRaw => true | _ => false end.

Definition is_RequestPty (e : Event) : bool :=
  match e with EvRequestPty _ _ _ _ => true | _ => false end.

(** The calls of [t] that enter raw mode, and those that request a PTY. *)
Definition raw_entries (t : list Event) : list Event :=
  List.filter is_MakeRaw t.

Definition pty_requests (t : list Event) : list Event :=
  List.filter is_RequestPty t.

(** The address [StartSession] dials. *)
Definition address_of (host : string) (port : Z) : string :=
  host +:+ ":" +:+ strconv.Itoa port.

(** The message of [StartSession] for an empty chain. *)
Definition NoAuthMethod : error :=
  errorString "No authentication method available. Configure at least one: ssh_agent, identity_file, keyring, or password.".

(** The terminal modes of the PTY request. *)
Definition pty_modes : ssh.TerminalModes :=
  [(ssh.ECHO, 1); (ssh.TTY_OP_ISPEED, 14400); (ssh.TTY_OP_OSPEED, 14400)].

(** *** The statements of the specification, for comparison with the code *)

(** A byte sequence read as little-endian 16-bit code units. *)
Fixpoint le16_units (b : list Z) : list Z :=
  match b with
  | lo :: hi :: rest => Z.lor lo (Z.shiftl hi 8) :: le16_units rest
  | _ => []
  end.

(** The detection heuristic of the specification: length > 1 and second
    byte zero. *)
Definition looks_utf16le (secret : string) : bool :=
  (1 <? GoString.len secret) && (GoString.index secret 1 =? 0).

(** The keyring correction as the specification words it. *)
Definition keyring_text_spec (secret : string) : string :=
  if looks_utf16le secret
  then utf16.string_of_runes (utf16.Decode (le16_units (GoString.bytes secret)))
  else secret.

(** The four sources, each with the guard under which the resolver
    consults it. *)
Definition AgentSource (env : Env) (c : AuthConfig) : M (list ssh.AuthMethod) :=
  if SSHAgent c then a <- TrySSHAgent env; ret (option_list a) else ret [].

Definition IdentityFileSource (env : Env) (c : AuthConfig)
    : M (list ssh.AuthMethod) :=
  if negb (String.eqb (IdentityFile c) "") then
    k <- TryIdentityFile env (IdentityFile c) (IdentityPassphrase c);
    ret (option_list k)
  else ret [].

Definition KeyringSource (env : Env) (c : AuthConfig)
    : M (list ssh.AuthMethod) :=
  if negb (String.eqb (KeyringService c) "")
     && negb (String.eqb (KeyringAccount c) "") then
    r <- GetPasswordFromKeyring env (KeyringService c) (KeyringAccount c);
    match r with
    | (password, None) =>
        if negb (String.eqb password "") then TryPasswordAuth password
        else ret []
    | (_, Some _) => ret []
    end
  else ret [].

Definition PasswordSource (c : AuthConfig) : M (list ssh.AuthMethod) :=
  if negb (String.eqb (Password c) "") then TryPasswordAuth (Password c)
  else ret [].

(** The resolver of the specification: the sources in the order Agent,
    IdentityFile, Keyring, Password, their outputs concatenated. *)
Definition resolve_spec (env : Env) (c : AuthConfig) : M (list ssh.AuthMethod) :=
  logger.Printf ("Building authentication methods for "
                 +:+ fmt.v_AuthConfig c);;
  a <- AgentSource env c;
  i <- IdentityFileSource env c;
  k <- KeyringSource env c;
  p <- PasswordSource c;
  logger.Printf ("Total authentication methods configured: "
                 +:+ fmt.d (Z.of_nat (length (a ++ i ++ k ++ p))));;
  ret (a ++ i ++ k ++ p).

(** *** Concrete scenarios *)

Module Scenario.

Definition NUL : string := String zero "".

(** An environment in which the agent, the home directory and the key file
    are there and the server is reachable; the remaining answers vary. *)
Definition mkEnv (parse : res ssh.Signer) (secret : res string)
    (probe dial : option error) (size : res (Z * Z)) : Env :=
  {| os_Getenv := fun _ => "/tmp/agent.sock";
     net_Dial := fun _ _ => None;
     os_UserHomeDir := Success "/home/u";
     filepath_Join := fun dir rest => dir +:+ rest;
     os_ReadFile := fun _ => Success "KEYDATA";
     ssh_ParsePrivateKey := fun _ => parse;
     ssh_ParsePrivateKeyWithPassphrase := fun _ passphrase =>
       if String.eqb passphrase "hunter2"
       then Success (ssh.ParsedKey "SHA256:k")
       else Failure (errorString "x509: decryption password incorrect");
     keyring_Get := fun _ _ => secret;
     net_DialTimeout := fun _ _ => probe;
     ssh_Dial := fun _ _ _ => dial;
     client_NewSession := None;
     term_MakeRaw := None;
     term_GetSize := size;
     session_RequestPty := fun _ _ => None;
     session_Shell := None |}.

Definition key : ssh.Signer := ssh.ParsedKey "SHA256:k".

Definition encrypted_key : error :=
  errorString "ssh: this private key is passphrase protected".

(** "AB" as the defective backends return it, and an odd-length secret
    whose second byte is zero. *)
Definition AB_utf16le : string := "A" +:+ NUL +:+ "B" +:+ NUL.
Definition odd_secret : string := "A" +:+ NUL +:+ "B".

Definition env_ok : Env :=
  mkEnv (Success key) (Success AB_utf16le) None None (Success (132, 43)).

Definition env_ascii : Env :=
  mkEnv (Success key) (Success "AB") None None (Success (132, 43)).

Definition env_odd : Env :=
  mkEnv (Success key) (Success odd_secret) None None (Success (132, 43)).

Definition env_encrypted : Env :=
  mkEnv (Failure encrypted_key) (Success "AB") None None (Success (132, 43)).

Definition env_no_tty_size : Env :=
  mkEnv (Success key) (Success "AB") None None
    (Failure (errorString "inappropriate ioctl for device")).

Definition env_unreachable : Env :=
  mkEnv (Success key) (Success "AB")
    (Some (errorString "dial tcp: i/o timeout")) None (Success (132, 43)).

(** What the client side of [ssh.Dial] returns when the server has rejected
    the password and the keyboard-interactive method: a plain error built
    with [fmt.Errorf].  A [*ssh.ServerAuthError] is created by the server
    side of the library only, so a client never receives one. *)
Definition rejected_text : string :=
  "ssh: handshake failed: ssh: unable to authenticate, attempted methods "
  +:+ "[none password keyboard-interactive], no supported methods remain".

Definition env_rejected : Env :=
  mkEnv (Success key) (Success "AB") None
    (Some (errorString rejected_text)) (Success (132, 43)).

(** The failure message of [StartSession] when [env_rejected] rejects. *)
Definition rejected_message : string :=
  "SSH connection failed: " +:+ rejected_text.

Definition cfg_empty : AuthConfig :=
  {| SSHAgent := false; IdentityFile := ""; IdentityPassphrase := "";
     KeyringService := ""; KeyringAccount := ""; Password := "" |}.

Definition cfg_password : AuthConfig :=
  {| SSHAgent := false; IdentityFile := ""; IdentityPassphrase := "";
     KeyringService := ""; KeyringAccount := ""; Password := "pw" |}.

Definition cfg_all : AuthConfig :=
  {| SSHAgent := true; IdentityFile := "/home/u/.ssh/id_ed25519";
     IdentityPassphrase := ""; KeyringService := "rolodex";
     KeyringAccount := "root@server"; Password := "pw" |}.

Definition cooked : TermState := {| raw := false; settings := 5 |}.

Definition w0 : World :=
  {| fileLogger := true; trace := []; terminal := cooked |}.

End Scenario.

(** ** Further vocabulary *)

(** The two kinds of authentication method. *)
Definition is_public_key (m : ssh.AuthMethod) : bool :=
  match m with
  | ssh.PublicKeysCallback _ _ | ssh.PublicKeys _ => true
  | _ => false
  end.

Definition is_password_like (m : ssh.AuthMethod) : bool :=
  match m with
  | ssh.Password _ | ssh.KeyboardInteractive _ => true
  | _ => false
  end.

(** The secret a password-like method carries; for the keyboard-interactive
    method, its answer to one question. *)
Definition secret_of (m : ssh.AuthMethod) : option string :=
  match m with
  | ssh.Password s => Some s
  | ssh.KeyboardInteractive cb => fst (cb "" "" [""] [false]) !! 0%nat
  | _ => None
  end.

(** A text as the defective keyring backends return it: every byte
    followed by a zero byte. *)
Definition utf16le_of_ascii (text : string) : string :=
  GoString.of_bytes (flat_map (fun b => [b; 0]) (GoString.bytes text)).

(** The calls of a trace that are not log lines. *)
Definition is_log (e : Event) : bool :=
  match e with EvLog _ => true | _ => false end.

Definition calls (t : list Event) : list Event :=
  List.filter (fun e => negb (is_log e)) t.

(** The transport [TrySSHAgent] picks for an agent address. *)
Definition agent_network (socket : string) : string :=
  if GoString.HasPrefix socket "\" then "pipe" else "unix".

(** What the keyring correction of the code makes of a stored secret. *)
Definition corrected_secret (secret : string) : string :=
  if looks_utf16le secret && Z.even (GoString.len secret)
  then utf16.string_of_runes
         (utf16.Decode (le16_units (GoString.bytes secret)))
  else secret.

(** The part of the events [t] that reaches the trace: all of them with
    the logger initialised, the calls without the log lines otherwise. *)
Definition visible (b : bool) (t : list Event) : list Event :=
  if b then t else calls t.

(** [m] does not depend on the logger: started in terminal mode [tm] it has
    one result, one final terminal mode and one list of events, whether
    [fileLogger] is set or nil; only the log lines are missing from the
    trace in the latter case. *)
Definition log_transparent {A} (m : M A) : Prop :=
  forall tm, exists a t tm',
    forall b tr,
      m {| fileLogger := b; trace := tr; terminal := tm |}
      = (a, {| fileLogger := b; trace := tr ++ visible b t;
               terminal := tm' |}).

(** ** The rest of identity.go *)

(** [os.FileInfo], as far as [ValidateKeyFile] looks at it: [info.IsDir()]
    and [info.Mode().Perm()]. *)
Record FileInfo := { IsDir : bool; Perm : Z }.

(** What [os.Stat] answers, and how a permission prints under [%v]. *)
Record StatEnv := {
  os_Stat : string -> res FileInfo;
  FileMode_String : Z -> string
}.

Section Keys.

Variable env : Env.
Variable disk : StatEnv.

(** Returns common SSH key file locations. *)
Definition ListCommonKeyPaths : M (list string) :=
  (h <- call EvUserHomeDir (os_UserHomeDir env);
   match h with
   | Failure _ => ret []
   | Success home =>
       let sshDir := filepath_Join env home ".ssh" in
       ret [filepath_Join env sshDir "id_rsa";
            filepath_Join env sshDir "id_ed25519";
            filepath_Join env sshDir "id_ecdsa";
            filepath_Join env sshDir "id_dsa"]
   end)%go.

(** Scans common locations for SSH keys. *)
Definition FindAvailableKeys : M (list string) :=
  (paths <- ListCommonKeyPaths;
   ret (foldl (fun availableKeys keyPath =>
                 match os_Stat disk keyPath with
                 | Success _ => availableKeys ++ [keyPath]
                 | Failure _ => availableKeys
                 end) [] paths))%go.

(** Checks if a key file exists and is readable. *)
Definition ValidateKeyFile (path : string) : M (option error) :=
  match os_Stat disk path with
  | Failure err =>
      ret (Some (errorString ("key file not accessible: " +:+ Error err)))
  | Success info =>
      if IsDir info then
        ret (Some (errorString "path is a directory, not a file"))
      else
        (* Check permissions (should not be world-readable); the mask
           is octal 0044, decimal 36 *)
        let mode := Perm info in
        ((if negb (Z.land mode 36 =? 0) then
            logger.Printf ("Warning: key file " +:+ path
                           +:+ " has overly permissive permissions: "
                           +:+ FileMode_String disk mode)
          else ret tt);;
         ret None)%go
  end.

End Keys.

(** [os.Stat] succeeded on the path. *)
Definition stat_ok (disk : StatEnv) (path : string) : bool :=
  match os_Stat disk path with Success _ => true | Failure _ => false end.

Module KeyScenario.

(** A disk holding one key file, mode 0644 (decimal 420). *)
Definition disk : StatEnv :=
  {| os_Stat := fun path =>
       if String.eqb path "/home/u/.ssh/id_ed25519"
       then Success {| IsDir := false; Perm := 420 |}
       else Failure (errorString "stat: no such file or directory");
     FileMode_String := fun _ => "-rw-r--r--" |}.

End KeyScenario.

(** ** The application (package main): the add-host form *)

Module Main.

(** Go's [int] on 64-bit targets: the results of arithmetic wrap around. *)
Definition int (z : Z) : Z := (z + 2 ^ 63) mod 2 ^ 64 - 2 ^ 63.

(** [strconv.Atoi] (Go standard library).  The callers here only test
    whether it failed, so the error value is not kept: [None] stands for
    both the syntax and the range error.  An optional sign is followed by
    at least one decimal digit; the value must fit an [int]. *)
Definition digit (ch : Z) : option Z :=
  if (48 <=? ch) && (ch <=? 57) then Some (ch - 48) else None.

Fixpoint digits (bs : list Z) (n : Z) : option Z :=
  match bs with
  | [] => Some n
  | ch :: rest =>
      match digit ch with
      | Some d => digits rest (n * 10 + d)
      | None => None
      end
  end.

Definition Atoi (s : string) : option Z :=
  match GoString.bytes s with
  | [] => None
  | ch :: rest =>
      let neg := ch =? 45 in
      let ds := if (ch =? 45) || (ch =? 43) then rest else ch :: rest in
      match ds with
      | [] => None
      | _ =>
          match digits ds 0 with
          | None => None
          | Some n =>
              let v := if neg then - n else n in
              if (- 2 ^ 63 <=? v) && (v <=? 2 ^ 63 - 1) then Some v else None
          end
      end
  end.

Record Host := {
  Name : string;
  Host_ : string;  (* the field [Host] *)
  Port : Z;
  User : string;
  SSHAgent : bool;
  IdentityFile : string;
  IdentityPassphrase : string;
  KeyringService : string;
  KeyringAccount : string;
  Password : string
}.

(** [Host{}] *)
Definition Host_zero : Host :=
  {| Name := ""; Host_ := ""; Port := 0; User := ""; SSHAgent := false;
     IdentityFile := ""; IdentityPassphrase := ""; KeyringService := "";
     KeyringAccount := ""; Password := "" |}.

(** The form: each [textinput.Model] is kept by its [Value()]. *)
Record formModel := {
  inputs : list string;
  focusIndex : Z;
  submitting : bool;
  scrollOffset : Z (* Track scroll position for large forms *)
}.

Definition nameInput : nat := 0.
Definition hostInput : nat := 1.
Definition portInput : nat := 2.
Definition userInput : nat := 3.
Definition sshAgentInput : nat := 4.
Definition identityFileInput : nat := 5.
Definition identityPassphraseInput : nat := 6.
Definition keyringServiceInput : nat := 7.
Definition keyringAccountInput : nat := 8.
Definition passwordInput : nat := 9.

(** [newFormModel]: ten empty inputs, the first one focused. *)
Definition newFormModel : formModel :=
  {| inputs := replicate 10 ""; focusIndex := 0; submitting := false;
     scrollOffset := 0 |}.

(** [f.inputs[i].Value()]; [None] is the index-out-of-range panic. *)
Definition Value (f : formModel) (i : nat) : option string := inputs f !! i.

Definition invalid (msg : string) : option (Host * option error) :=
  Some (Host_zero, Some (errorString msg)).

(** [validateAndCreateHost]; [None] is a run-time panic. *)
Definition validateAndCreateHost (f : formModel)
    : option (Host * option error) :=
  (* Validate required fields *)
  name ← Value f nameInput;
  if String.eqb name "" then invalid "name is required" else
  host ← Value f hostInput;
  if String.eqb host "" then invalid "host/IP is required" else
  user ← Value f userInput;
  if String.eqb user "" then invalid "user is required" else
  (* Parse port *)
  portStr ← Value f portInput;
  let portStr := if String.eqb portStr "" then "22" else portStr in
  match Atoi portStr with
  | None => invalid "invalid port number"
  | Some port =>
      if (port <? 1) || (65535 <? port) then invalid "invalid port number"
      else
        (* Parse SSH Agent *)
        agent ← Value f sshAgentInput;
        let sshAgent := String.eqb agent "true" in
        name ← Value f nameInput;
        host ← Value f hostInput;
        user ← Value f userInput;
        identityFile ← Value f identityFileInput;
        identityPassphrase ← Value f identityPassphraseInput;
        keyringService ← Value f keyringServiceInput;
        keyringAccount ← Value f keyringAccountInput;
        password ← Value f passwordInput;
        Some ({| Name := name; Host_ := host; Port := port; User := user;
                 SSHAgent := sshAgent; IdentityFile := identityFile;
                 IdentityPassphrase := identityPassphrase;
                 KeyringService := keyringService;
                 KeyringAccount := keyringAccount;
                 Password := password |}, None)
  end.

(** The line of the focused input, as [calculateScrollOffset] counts it. *)
Definition focusedLine (focusIndex : Z) : Z :=
  let linesPerInput := 4 in
  (* Add extra lines for section headers *)
  let extraLines := 0 in
  let extraLines :=
    if Z.of_nat sshAgentInput <=? focusIndex
    then int (extraLines + 2) else extraLines in
  let extraLines :=
    if Z.of_nat identityFileInput <=? focusIndex
    then int (extraLines + 2) else extraLines in
  let extraLines :=
    if Z.of_nat keyringServiceInput <=? focusIndex
    then int (extraLines + 2) else extraLines in
  let extraLines :=
    if Z.of_nat passwordInput <=? focusIndex
    then int (extraLines + 2) else extraLines in
  int (int (focusIndex * linesPerInput) + extraLines).

(** [calculateScrollOffset]: determines the scroll offset to keep the
    focused input visible.  [availHeight] is what [renderFormHelp] returns
    (computed by the rendering library). *)
Definition calculateScrollOffset (f : formModel) (availHeight : Z) : Z :=
  let focusedLine := focusedLine (focusIndex f) in
  let padding := 3 in
  if focusedLine <? int (scrollOffset f + padding) then
    (* Scroll up *)
    Z.max 0 (int (focusedLine - padding))
  else if int (int (scrollOffset f + availHeight) - padding) <? focusedLine
  then
    (* Scroll down *)
    int (int (focusedLine - availHeight) + padding)
  else scrollOffset f.

(** The navigation keys of [updateForm] ("tab", "shift+tab", "up",
    "down"): the focus moves and wraps around, then the scroll offset is
    recomputed. *)
Definition navigate (s : string) (availHeight : Z) (f : formModel)
    : formModel :=
  let focusIndex :=
    if String.eqb s "up" || String.eqb s "shift+tab"
    then int (focusIndex f - 1) else int (focusIndex f + 1) in
  let len := Z.of_nat (length (inputs f)) in
  let focusIndex :=
    if int (len - 1) <? focusIndex then 0
    else if focusIndex <? 0 then int (len - 1)
    else focusIndex in
  let f := {| inputs := inputs f; focusIndex := focusIndex;
              submitting := submitting f; scrollOffset := scrollOffset f |} in
  {| inputs := inputs f; focusIndex := focusIndex;
     submitting := submitting f;
     scrollOffset := calculateScrollOffset f availHeight |}.

(** [lines[low:high]]; [None] is the slice-bounds panic.  The bounds used
    below never exceed [len(lines)]. *)
Definition slice {A} (lines : list A) (low high : Z) : option (list A) :=
  if (0 <=? low) && (low <=? high) && (high <=? Z.of_nat (length lines))
  then Some (take (Z.to_nat (high - low)) (drop (Z.to_nat low) lines))
  else None.

(** Returns the visible portion of form lines based on scroll offset. *)
Definition getVisibleFormLines (f : formModel) (lines : list string)
    (availHeight : Z) : option (list string) :=
  let len := Z.of_nat (length lines) in
  if len <=? availHeight then Some lines
  else
    let start := scrollOffset f in
    let end_ := Z.min (int (start + availHeight)) len in
    if len <=? start then
      slice lines (Z.max 0 (int (len - availHeight))) len
    else slice lines start end_.

(** Returns the visible portion of delete form lines. *)
Definition getVisibleDeleteLines (lines : list string) (availHeight : Z)
    : option (list string) :=
  let len := Z.of_nat (length lines) in
  if len <=? availHeight then Some lines
  else
    let end_ := Z.min availHeight len in
    slice lines 0 end_.

End Main.

(** ** The application: connecting to a host *)

Module Connect.

(** The [ssh.AuthConfig] the application builds from a host before it
    calls [ssh.StartSession]. *)
Definition authConfigOf (h : Main.Host) : AuthConfig :=
  {| SSHAgent := Main.SSHAgent h;
     IdentityFile := Main.IdentityFile h;
     IdentityPassphrase := Main.IdentityPassphrase h;
     KeyringService := Main.KeyringService h;
     KeyringAccount := Main.KeyringAccount h;
     Password := Main.Password h |}.

(** The message the connect command sends back to the user interface. *)
Inductive Msg :=
| errorMsg (err : error)
| resetListMsg.

(** The command run when a host is selected: the session is started and
    its outcome is reported. *)
Definition connect (env : Env) (h : Main.Host) : M Msg :=
  (let authConfig := authConfigOf h in
   err <- StartSession env (Main.Host_ h) (Main.Port h) (Main.User h)
            authConfig;
   match err with
   | Some err => ret (errorMsg err)
   | None => ret resetListMsg
   end)%go.

(** A form as the user fills it in. *)
Definition form (name host port user agent identityFile passphrase service
                 account password : string) : Main.formModel :=
  {| Main.inputs := [name; host; port; user; agent; identityFile; passphrase;
                     service; account; password];
     Main.focusIndex := 0; Main.submitting := false;
     Main.scrollOffset := 0 |}.

End Connect.

(** The keys that move the focus up. *)
Definition moves_up (s : string) : bool :=
  String.eqb s "up" || String.eqb s "shift+tab".

(** Where the window of [getVisibleFormLines] starts. *)
Definition window_start (f : Main.formModel) (len availHeight : Z) : Z :=
  if len <=? availHeight then 0
  else if len <=? Main.scrollOffset f then len - availHeight
  else Main.scrollOffset f.

(** ** The application: the configuration file *)

Module Config.

Record Folder := { FolderName : string; FolderHosts : list Main.Host }.

Record Configuration := {
  Folders : list Folder;
  Hosts : list Main.Host
}.

(** The file system and encoding/json, over some state [Files] of the
    disk: [os.ReadFile], [os.WriteFile] (with the state it leaves behind,
    also when it fails), [json.Unmarshal] into an empty [Configuration]
    and [json.MarshalIndent]. *)
Record Sys (Files : Type) := {
  ReadFile : Files -> string -> res string;
  WriteFile : Files -> string -> string -> option error * Files;
  Unmarshal : string -> res Configuration;
  MarshalIndent : Configuration -> res string
}.
Arguments ReadFile {Files} _ _ _.
Arguments WriteFile {Files} _ _ _ _.
Arguments Unmarshal {Files} _ _.
Arguments MarshalIndent {Files} _ _.

(** [fmt.Errorf(format + ": %w", err)] *)
Definition Errorf (msg : string) (err : error) : error :=
  errorString (msg +:+ ": " +:+ Error err).

Section Files.

Context {Files : Type} (sys : Sys Files).

(** The common end of both functions: marshal the configuration and write
    it back. *)
Definition writeConfig (configPath : string) (config : Configuration)
    (files : Files) : option error * Files :=
  match MarshalIndent sys config with
  | Failure err => (Some (Errorf "failed to marshal config" err), files)
  | Success prettyJSON =>
      match WriteFile sys files configPath prettyJSON with
      | (Some err, files') =>
          (Some (Errorf "failed to write config" err), files')
      | (None, files') => (None, files')
      end
  end.

(** Saves a new host to the config file. *)
Definition saveHostToConfig (configPath : string) (newHost : Main.Host)
    (files : Files) : option error * Files :=
  match ReadFile sys files configPath with
  | Failure err => (Some (Errorf "failed to read config" err), files)
  | Success data =>
      match Unmarshal sys data with
      | Failure err => (Some (Errorf "failed to parse config" err), files)
      | Success config =>
          let config := {| Folders := Folders config;
                           Hosts := Hosts config ++ [newHost] |} in
          writeConfig configPath config files
      end
  end.

(** Deletes a host from the config file. *)
Definition deleteHostFromConfig (configPath : string) (hostIndex : Z)
    (files : Files) : option error * Files :=
  match ReadFile sys files configPath with
  | Failure err => (Some (Errorf "failed to read config" err), files)
  | Success data =>
      match Unmarshal sys data with
      | Failure err => (Some (Errorf "failed to parse config" err), files)
      | Success config =>
          if (hostIndex <? 0)
             || (Z.of_nat (length (Hosts config)) <=? hostIndex)
          then (Some (errorString "invalid host index"), files)
          else
            let config :=
              {| Folders := Folders config;
                 Hosts := take (Z.to_nat hostIndex) (Hosts config)
                          ++ drop (Z.to_nat (Main.int (hostIndex + 1)))
                               (Hosts config) |} in
            writeConfig configPath config files
      end
  end.

End Files.

(** The views of the application. *)
Inductive viewState := listView | formView | deleteConfirmView.

(** The model of the user interface; the [list.Model] is kept by the hosts
    it was built from ([buildList]). *)
Record Model := {
  list_ : list Main.Host;
  hosts : list Main.Host;
  err : option error;
  showErr : bool;
  view : viewState;
  form : Main.formModel;
  configPath : string;
  hostToDelete : option Main.Host;
  hostToDeleteIndex : Z;
  width : Z;
  height : Z;
  connectHost : option Main.Host
}.

(** The commands the update functions return: none, the one that reads
    the terminal size and sends a [tea.WindowSizeMsg], the batch of the
    inputs' focus commands, and the command of an input's own update. *)
Inductive Cmd := noCmd | windowSizeCmd | batchCmd | inputCmd.

(** [buildList] *)
Definition buildList (hosts : list Main.Host) : list Main.Host := hosts.

(** The exits of [updateDeleteConfirm] that report an error. *)
Definition deleteFailed (m : Model) (e : error) : Model :=
  {| list_ := list_ m; hosts := hosts m; err := Some e; showErr := true;
     view := listView; form := form m; configPath := configPath m;
     hostToDelete := None; hostToDeleteIndex := hostToDeleteIndex m;
     width := width m; height := height m; connectHost := connectHost m |}.

Section Update.

Context {Files : Type} (sys : Sys Files).

(** [updateDeleteConfirm], with [msg.String()] for the key. *)
Definition updateDeleteConfirm (m : Model) (msg : string) (files : Files)
    : Model * Cmd * Files :=
  if String.eqb msg "y" || String.eqb msg "Y" then
    (* Confirm deletion *)
    match deleteHostFromConfig sys (configPath m) (hostToDeleteIndex m) files
    with
    | (Some e, files) =>
        (deleteFailed m (Errorf "failed to delete host" e), noCmd, files)
    | (None, files) =>
        (* Reload config *)
        match ReadFile sys files (configPath m) with
        | Failure e =>
            (deleteFailed m (Errorf "failed to reload config" e), noCmd, files)
        | Success data =>
            match Unmarshal sys data with
            | Failure e =>
                (deleteFailed m (Errorf "failed to parse reloaded config" e),
                 noCmd, files)
            | Success config =>
                (* Update model with new hosts and return to list *)
                ({| list_ := buildList (Hosts config);
                    hosts := Hosts config; err := err m;
                    showErr := showErr m; view := listView; form := form m;
                    configPath := configPath m; hostToDelete := None;
                    hostToDeleteIndex := hostToDeleteIndex m;
                    width := width m; height := height m;
                    connectHost := connectHost m |},
                 windowSizeCmd, files)
            end
        end
    end
  else if String.eqb msg "n" || String.eqb msg "N" || String.eqb msg "esc"
  then
    (* Cancel deletion *)
    ({| list_ := list_ m; hosts := hosts m; err := err m;
        showErr := showErr m; view := listView; form := form m;
        configPath := configPath m; hostToDelete := None;
        hostToDeleteIndex := hostToDeleteIndex m;
        width := width m; height := height m;
        connectHost := connectHost m |}, noCmd, files)
  else (m, noCmd, files).

(** The exits of [updateForm] that report an error. *)
Definition formFailed (m : Model) (e : error) : Model :=
  {| list_ := list_ m; hosts := hosts m; err := Some e; showErr := true;
     view := listView; form := form m; configPath := configPath m;
     hostToDelete := hostToDelete m;
     hostToDeleteIndex := hostToDeleteIndex m;
     width := width m; height := height m; connectHost := connectHost m |}.

Definition with_view (m : Model) (v : viewState) : Model :=
  {| list_ := list_ m; hosts := hosts m; err := err m; showErr := showErr m;
     view := v; form := form m; configPath := configPath m;
     hostToDelete := hostToDelete m;
     hostToDeleteIndex := hostToDeleteIndex m;
     width := width m; height := height m; connectHost := connectHost m |}.

Definition with_form (m : Model) (f : Main.formModel) : Model :=
  {| list_ := list_ m; hosts := hosts m; err := err m; showErr := showErr m;
     view := view m; form := f; configPath := configPath m;
     hostToDelete := hostToDelete m;
     hostToDeleteIndex := hostToDeleteIndex m;
     width := width m; height := height m; connectHost := connectHost m |}.

(** [updateForm], with [msg.String()] for the key.  [availHeight] is what
    [renderFormHelp] returns and [input_Update] what the focused
    [textinput.Model] makes of its value on a key (both belong to the
    rendering libraries); [None] is a run-time panic. *)
Definition updateForm (availHeight : Z)
    (input_Update : string -> string -> string)
    (m : Model) (msg : string) (files : Files)
    : option (Model * Cmd * Files) :=
  if String.eqb msg "esc" then
    (* Cancel and return to list *)
    Some (with_view m listView, noCmd, files)
  else if String.eqb msg "tab" || String.eqb msg "shift+tab"
          || String.eqb msg "up" || String.eqb msg "down" then
    (* Navigate between inputs *)
    Some (with_form m (Main.navigate msg availHeight (form m)), batchCmd,
          files)
  else if String.eqb msg "enter" then
    (* Submit form *)
    r ← Main.validateAndCreateHost (form m);
    match r with
    | (_, Some e) => Some (formFailed m e, noCmd, files)
    | (newHost, None) =>
        (* Save to config *)
        match saveHostToConfig sys (configPath m) newHost files with
        | (Some e, files) =>
            Some (formFailed m (Errorf "failed to save host" e), noCmd, files)
        | (None, files) =>
            (* Reload config *)
            match ReadFile sys files (configPath m) with
            | Failure e =>
                Some (formFailed m (Errorf "failed to reload config" e),
                      noCmd, files)
            | Success data =>
                match Unmarshal sys data with
                | Failure e =>
                    Some (formFailed m
                            (Errorf "failed to parse reloaded config" e),
                          noCmd, files)
                | Success config =>
                    (* Update model with new hosts and return to list *)
                    Some ({| list_ := buildList (Hosts config);
                             hosts := Hosts config; err := err m;
                             showErr := showErr m; view := listView;
                             form := form m; configPath := configPath m;
                             hostToDelete := hostToDelete m;
                             hostToDeleteIndex := hostToDeleteIndex m;
                             width := width m; height := height m;
                             connectHost := connectHost m |},
                          windowSizeCmd, files)
                end
            end
        end
    end
  else
    (* Update the focused input *)
    let i := Main.focusIndex (form m) in
    if i <? 0 then None
    else
      value ← Main.inputs (form m) !! Z.to_nat i;
      Some (with_form m
              {| Main.inputs :=
                   <[Z.to_nat i := input_Update value msg]>
                     (Main.inputs (form m));
                 Main.focusIndex := Main.focusIndex (form m);
                 Main.submitting := Main.submitting (form m);
                 Main.scrollOffset := Main.scrollOffset (form m) |},
            inputCmd, files).

End Update.

End Config.

(** A configuration with its host list replaced. *)
Definition with_hosts (c : Config.Configuration) (hs : list Main.Host)
    : Config.Configuration :=
  {| Config.Folders := Config.Folders c; Config.Hosts := hs |}.

(** The outcome of [writeConfig] once the text to write is known. *)
Definition written {Files} (sys : Config.Sys Files) (files : Files)
    (path json : string) : option error * Files :=
  match Config.WriteFile sys files path json with
  | (Some e, files') =>
      (Some (Config.Errorf "failed to write config" e), files')
  | (None, files') => (None, files')
  end.

Module ConfigScenario.

Definition web : Main.Host :=
  {| Main.Name := "web"; Main.Host_ := "example.org"; Main.Port := 22;
     Main.User := "root"; Main.SSHAgent := true; Main.IdentityFile := "";
     Main.IdentityPassphrase := ""; Main.KeyringService := "";
     Main.KeyringAccount := ""; Main.Password := "" |}.

Definition db : Main.Host :=
  {| Main.Name := "db"; Main.Host_ := "10.0.0.2"; Main.Port := 2222;
     Main.User := "admin"; Main.SSHAgent := false; Main.IdentityFile := "";
     Main.IdentityPassphrase := ""; Main.KeyringService := "";
     Main.KeyringAccount := ""; Main.Password := "pw" |}.

Definition one : Config.Configuration :=
  {| Config.Folders := []; Config.Hosts := [web] |}.

Definition two : Config.Configuration :=
  {| Config.Folders := []; Config.Hosts := [web; db] |}.

(** A disk holding the text of at most one file, and a codec that knows
    the two configurations above by the number of their hosts. *)
Definition sys : Config.Sys (option string) :=
  {| Config.ReadFile := fun files _ =>
       match files with
       | Some data => Success data
       | None => Failure (errorString "no such file or directory")
       end;
     Config.WriteFile := fun _ _ data => (None, Some data);
     Config.Unmarshal := fun data =>
       if String.eqb data "one" then Success one
       else if String.eqb data "two" then Success two
       else Failure (errorString "unexpected end of JSON input");
     Config.MarshalIndent := fun c =>
       Success (if (length (Config.Hosts c) =? 1)%nat then "one" else "two")
  |}.

Definition model : Config.Model :=
  {| Config.list_ := [web; db]; Config.hosts := [web; db];
     Config.err := None; Config.showErr := false;
     Config.view := Config.deleteConfirmView; Config.form := Main.newFormModel;
     Config.configPath := "config.json"; Config.hostToDelete := Some db;
     Config.hostToDeleteIndex := 1; Config.width := 80; Config.height := 24;
     Config.connectHost := None |}.

End ConfigScenario.

(** The keys of the delete confirmation. *)
Definition confirm_key (msg : string) : bool :=
  String.eqb msg "y" || String.eqb msg "Y".

Definition cancel_key (msg : string) : bool :=
  String.eqb msg "n" || String.eqb msg "N" || String.eqb msg "esc".

(** The size [StartSession] requests for the remote terminal, as (height,
    width). *)
Definition pty_size (env : Env) : Z * Z :=
  match term_GetSize env with
  | Success (width, height) => (height, width)
  | Failure _ => (24, 80)
  end.

(** Every step of a session succeeded, for the chain offered. *)
Definition all_steps_succeed (env : Env) (host : string) (port : Z)
    (user : string) (chain : list ssh.AuthMethod) : Prop :=
  net_DialTimeout env "tcp" (address_of host port) = None
  /\ chain <> []
  /\ ssh_Dial env (address_of host port) user chain = None
  /\ client_NewSession env = None
  /\ term_MakeRaw env = None
  /\ session_RequestPty env (fst (pty_size env)) (snd (pty_size env)) = None
  /\ session_Shell env = None.

(** The keys [updateForm] handles itself; every other key goes to the
    focused input. *)
Definition form_key (msg : string) : bool :=
  String.eqb msg "esc"
  || (String.eqb msg "tab" || String.eqb msg "shift+tab"
      || String.eqb msg "up" || String.eqb msg "down")
  || String.eqb msg "enter".

(** ** Lemmas on the state-passing combinators *)

Lemma io_ret {A} P (a : A) : io_only P (ret a).
Proof. intros b. exists a, []. split; [done|]. intros. by rewrite app_nil_r. Qed.

Lemma io_bind {A B} P (m : M A) (k : A -> M B) :
  io_only P m -> (forall a, io_only P (k a)) -> io_only P (bind m k).
Proof.
  intros Hm Hk b.
  destruct (Hm b) as (a & t1 & F1 & E1).
  destruct (Hk a b) as (c & t2 & F2 & E2).
  exists c, (t1 ++ t2). split.
  - rewrite forallb_app, F1, F2. done.
  - intros tr tm. unfold bind. rewrite E1, E2, app_assoc. done.
Qed.

Lemma io_emit P e : P e = true -> io_only P (emit e).
Proof.
  intros He b. exists tt, [e]. split; [simpl; by rewrite He|]. done.
Qed.

Lemma io_call {A} P e (a : A) : P e = true -> io_only P (call e a).
Proof.
  intros He. unfold call. apply io_bind; [by apply io_emit|].
  intros _. apply io_ret.
Qed.

Lemma io_Printf P line : P (EvLog line) = true -> io_only P (logger.Printf line).
Proof.
  intros He [|].
  - exists tt, [EvLog line]. split; [simpl; by rewrite He|]. done.
  - exists tt, []. split; [done|]. intros. unfold logger.Printf. simpl.
    by rewrite app_nil_r.
Qed.

(** One step of a proof that a source only makes source calls. *)
Ltac io_step :=
  first
    [ apply io_ret
    | apply io_Printf; reflexivity
    | apply io_call; reflexivity
    | apply io_emit; reflexivity
    | apply io_bind; [| intros ? ]
    | match goal with
      | |- io_only _ (if ?c then _ else _) => destruct c
      | |- io_only _ (match ?x with _ => _ end) => destruct x
      | |- io_only _ (let '(_, _) := ?x in _) => destruct x
      end ].

Lemma io_TryPasswordAuth password :
  io_only source_event (TryPasswordAuth password).
Proof. unfold TryPasswordAuth. repeat io_step. Qed.

Lemma io_TrySSHAgent env : io_only source_event (TrySSHAgent env).
Proof. unfold TrySSHAgent. repeat io_step. Qed.

Lemma io_TryIdentityFile env identityFile passphrase :
  io_only source_event (TryIdentityFile env identityFile passphrase).
Proof. unfold TryIdentityFile, expandHome. repeat io_step. Qed.

Lemma io_GetPasswordFromKeyring env service account :
  io_only source_event (GetPasswordFromKeyring env service account).
Proof. unfold GetPasswordFromKeyring. cbv zeta. repeat io_step. Qed.

Lemma io_buildAuthMethods env config :
  io_only source_event (buildAuthMethods env config).
Proof.
  unfold buildAuthMethods. cbv zeta.
  repeat first
    [ apply io_TryPasswordAuth | apply io_TrySSHAgent
    | apply io_TryIdentityFile | apply io_GetPasswordFromKeyring | io_step ].
Qed.

Lemma yields_run {A} (m : M A) (a : A) :
  yields m a -> forall w, exists w', m w = (a, w').
Proof.
  intros H w. specialize (H w). destruct (m w) as [a' w']. simpl in H.
  subst. by exists w'.
Qed.

(** ** Lemmas on the index loops *)

Lemma foldl_assign {A} (value : nat -> A) (m : nat) :
  forall (k : nat) (s : list A),
    (k + m <= length s)%nat ->
    foldl (fun s i => <[i := value i]> s) s (seq k m)
    = take k s ++ (value <$> seq k m) ++ drop (k + m) s.
Proof.
  induction m as [|m IH]; intros k s Hlen; simpl.
  - by rewrite Nat.add_0_r, take_drop.
  - rewrite IH by (rewrite length_insert; lia).
    rewrite (take_S_r _ _ (value k))
      by (apply list_lookup_insert_eq; lia).
    rewrite take_insert_ge by lia.
    rewrite drop_insert_lt by lia.
    rewrite <- app_assoc. simpl.
    by replace (S (k + m)) with (k + S m)%nat by lia.
Qed.

Lemma for_range_assign_fmap {A} (value : nat -> A) (s : list A) :
  for_range_assign value s = value <$> seq 0 (length s).
Proof.
  unfold for_range_assign. rewrite foldl_assign by lia.
  simpl. by rewrite drop_all, app_nil_r.
Qed.

Lemma fmap_const_seq {A} (x : A) (n : nat) :
  forall k, (fun _ => x) <$> seq k n = replicate n x.
Proof. induction n as [|n IH]; intros k; simpl; [done|]. by rewrite IH. Qed.

Lemma challenge_answers password user instruction questions echos :
  challenge password user instruction questions echos
  = (replicate (length questions) password, None).
Proof.
  unfold challenge. f_equal.
  rewrite (foldl_assign (fun _ => password))
    by (rewrite length_replicate; lia).
  simpl. rewrite drop_ge by (rewrite length_replicate; lia).
  by rewrite app_nil_r, fmap_const_seq.
Qed.

(** ** The Password source and the resolver *)

(** Destructs the world so that the logger's test computes. *)
Ltac world w := destruct w as [[|] ? ?].

Lemma TryPasswordAuth_run password w :
  TryPasswordAuth password w
  = ([ssh.Password password; ssh.KeyboardInteractive (challenge password)],
     extend w (recorded w
       [EvLog "Adding password and keyboard-interactive authentication methods"])).
Proof. world w; [done|]. unfold extend; simpl. by rewrite app_nil_r. Qed.

(** C5: the Password source yields exactly two descriptors, the direct
    password method first and then the keyboard-interactive method, whose
    every answer is the secret; and a bundle in which only the password is
    non-empty resolves to exactly these two, in that order. *)
Theorem C5_password_source_two_methods (password : string) (w : World) :
  fst (TryPasswordAuth password w)
  = [ssh.Password password; ssh.KeyboardInteractive (challenge password)]
  /\ (forall user instruction questions echos,
        challenge password user instruction questions echos
        = (replicate (length questions) password, None))
  /\ (forall env c,
        password <> "" ->
        SSHAgent c = false -> IdentityFile c = "" ->
        IdentityPassphrase c = "" ->
        KeyringService c = "" -> KeyringAccount c = "" ->
        Password c = password ->
        fst (buildAuthMethods env c w)
        = [ssh.Password password;
           ssh.KeyboardInteractive (challenge password)]).
Proof.
  split; [by rewrite TryPasswordAuth_run|].
  split; [intros; apply challenge_answers|].
  intros env [a i p s k pw] Hne; simpl; intros -> -> -> -> -> ->.
  unfold buildAuthMethods, bind; simpl.
  apply String.eqb_neq in Hne. rewrite Hne. simpl.
  world w; reflexivity.
Qed.

Lemma C5_password_source_two_methods_witness :
  fst (buildAuthMethods Scenario.env_ok Scenario.cfg_password Scenario.w0)
  = [ssh.Password "pw"; ssh.KeyboardInteractive (challenge "pw")].
Proof.
  apply (C5_password_source_two_methods "pw" Scenario.w0); try reflexivity.
  discriminate.
Defined.

(** C7: a bundle whose every field is empty resolves to the empty chain;
    no source is consulted at all, the only effect being the two log lines
    of the resolver. *)
Theorem C7_empty_bundle_empty_chain (env : Env) (c : AuthConfig) (w : World) :
  SSHAgent c = false -> IdentityFile c = "" -> IdentityPassphrase c = "" ->
  KeyringService c = "" -> KeyringAccount c = "" -> Password c = "" ->
  buildAuthMethods env c w
  = ([], extend w (recorded w
       [EvLog "Building authentication methods for {false     }";
        EvLog "Total authentication methods configured: 0"])).
Proof.
  destruct c as [a i p s k pw]; simpl; intros -> -> -> -> -> ->.
  world w; unfold extend; cbn; rewrite <- ?app_assoc, ?app_nil_r; reflexivity.
Qed.

Lemma C7_empty_bundle_empty_chain_witness :
  fst (buildAuthMethods Scenario.env_ok Scenario.cfg_empty Scenario.w0) = [].
Proof.
  by rewrite (C7_empty_bundle_empty_chain Scenario.env_ok Scenario.cfg_empty
                Scenario.w0 eq_refl eq_refl eq_refl eq_refl eq_refl eq_refl).
Defined.

(** Runs the call that is next in the goal (the one applied to a world
    already known), naming its result. *)
Ltac run_next :=
  match goal with
  | |- context [logger.Printf ?l ?w] =>
      destruct (logger.Printf l w) as [[] ?]
  | |- context [TrySSHAgent ?e ?w] =>
      destruct (TrySSHAgent e w) as [[?|] ?]
  | |- context [TryIdentityFile ?e ?f ?p ?w] =>
      destruct (TryIdentityFile e f p w) as [[?|] ?]
  | |- context [GetPasswordFromKeyring ?e ?s ?a ?w] =>
      destruct (GetPasswordFromKeyring e s a w) as [[? [?|]] ?]
  | |- context [TryPasswordAuth ?p ?w] =>
      destruct (TryPasswordAuth p w) as [? ?]
  | |- context [if ?c then _ else _] => destruct c
  end.

Lemma buildAuthMethods_resolve_spec env c w :
  buildAuthMethods env c w = resolve_spec env c w.
Proof.
  unfold buildAuthMethods, resolve_spec, AgentSource, IdentityFileSource,
    KeyringSource, PasswordSource, bind, ret.
  repeat (run_next; simpl; rewrite ?app_nil_r, <- ?app_assoc; simpl);
    reflexivity.
Qed.

(** Uses a hypothesis [yields m a] for the call of [m] that is next. *)
Ltac run_yield H :=
  match type of H with
  | yields ?m _ =>
      match goal with
      | |- context [m ?w] =>
          let w' := fresh "w" in
          destruct (yields_run _ _ H w) as [w' ->]
      end
  end.

(** C3: the resolver consults the sources in the order Agent, IdentityFile,
    Keyring, Password and returns their outputs concatenated in that order;
    with all four configured and valid the chain is exactly agent, identity
    file, the keyring secret's two methods, the explicit password's two
    methods; and the resolver always returns a chain. *)
Theorem C3_resolver_priority_order (env : Env) (c : AuthConfig) :
  (forall w, buildAuthMethods env c w = resolve_spec env c w)
  /\ (forall agentAuth keyAuth secret,
        SSHAgent c = true -> IdentityFile c <> "" ->
        KeyringService c <> "" -> KeyringAccount c <> "" ->
        Password c <> "" ->
        yields (TrySSHAgent env) (Some agentAuth) ->
        yields (TryIdentityFile env (IdentityFile c) (IdentityPassphrase c))
          (Some keyAuth) ->
        yields (GetPasswordFromKeyring env (KeyringService c)
                  (KeyringAccount c)) (secret, None) ->
        secret <> "" ->
        yields (buildAuthMethods env c)
          [agentAuth; keyAuth;
           ssh.Password secret; ssh.KeyboardInteractive (challenge secret);
           ssh.Password (Password c);
           ssh.KeyboardInteractive (challenge (Password c))])
  /\ (forall w, exists chain w', buildAuthMethods env c w = (chain, w')).
Proof.
  split; [apply buildAuthMethods_resolve_spec|]. split.
  - intros agentAuth keyAuth secret Ha Hi Hs Hk Hp Yagent Ykey Yring Hsecret w.
    apply String.eqb_neq in Hi, Hs, Hk, Hp, Hsecret.
    unfold buildAuthMethods, bind, ret.
    rewrite Ha, Hi, Hs, Hk, Hp. simpl.
    destruct (logger.Printf _ w) as [[] w1].
    run_yield Yagent. run_yield Ykey. run_yield Yring.
    rewrite Hsecret. simpl. rewrite !TryPasswordAuth_run. simpl.
    by destruct (logger.Printf _ _).
  - intros w. destruct (buildAuthMethods env c w) as [chain w'].
    by exists chain, w'.
Qed.

Lemma C3_resolver_priority_order_witness :
  yields (buildAuthMethods Scenario.env_ok Scenario.cfg_all)
    [ssh.PublicKeysCallback "unix" "/tmp/agent.sock";
     ssh.PublicKeys Scenario.key;
     ssh.Password "AB"; ssh.KeyboardInteractive (challenge "AB");
     ssh.Password "pw"; ssh.KeyboardInteractive (challenge "pw")].
Proof.
  apply (C3_resolver_priority_order Scenario.env_ok Scenario.cfg_all);
    try discriminate; try reflexivity;
    intros w; world w; reflexivity.
Defined.

(** ** The keyring correction *)

Lemma bytes_length s : length (GoString.bytes s) = String.length s.
Proof.
  unfold GoString.bytes. rewrite length_fmap.
  induction s as [|c s IH]; simpl; [done|]. by rewrite IH.
Qed.

Lemma bytes_range s : Forall (fun z => 0 <= z < 256) (GoString.bytes s).
Proof.
  unfold GoString.bytes. apply Forall_fmap, Forall_forall. intros c _. simpl.
  pose proof (N_ascii_bounded c). lia.
Qed.

(** The reads of the conversion loop stay inside [passwordBytes]. *)
Lemma le16_reads_inside (passwordBytes : list Z) (i : nat) :
  (i < Z.to_nat (Z.quot (Z.of_nat (length passwordBytes)) 2))%nat ->
  is_Some (passwordBytes !! (i * 2)%nat)
  /\ is_Some (passwordBytes !! (i * 2 + 1)%nat).
Proof.
  intros Hi. rewrite Z.quot_div_nonneg in Hi by lia.
  assert (i * 2 + 1 < length passwordBytes)%nat.
  { pose proof (Z.mul_div_le (Z.of_nat (length passwordBytes)) 2). lia. }
  split; apply lookup_lt_is_Some; lia.
Qed.

Lemma le16_in_range lo hi rest :
  0 <= lo < 256 -> 0 <= hi < 256 ->
  le16 (lo :: hi :: rest) 0 = Z.lor lo (Z.shiftl hi 8).
Proof.
  intros Hlo Hhi. unfold le16. simpl.
  rewrite (Z.mod_small lo), (Z.mod_small hi) by lia.
  rewrite Z.mod_small; [done|]. rewrite Z.shiftl_mul_pow2 by lia. lia.
Qed.

Lemma le16_shift lo hi rest i : le16 (lo :: hi :: rest) (S i) = le16 rest i.
Proof. unfold le16. simpl. done. Qed.

(** The index loop of the code computes the little-endian code units. *)
Lemma le16_fmap_units (n : nat) :
  forall b : list Z,
    length b = (2 * n)%nat -> Forall (fun z => 0 <= z < 256) b ->
    le16 b <$> seq 0 n = le16_units b.
Proof.
  induction n as [|n IH]; intros b Hlen Hb.
  - by destruct b.
  - destruct b as [|lo [|hi rest]]; simpl in Hlen; try lia.
    inversion Hb as [|? ? Hlo Hb']; subst.
    inversion Hb' as [|? ? Hhi Hrest]; subst.
    change (seq 0 (S n)) with (0%nat :: seq 1 n).
    rewrite fmap_cons, le16_in_range by done.
    rewrite <- fmap_S_seq, <- list_fmap_compose.
    change (le16_units (lo :: hi :: rest))
      with (Z.lor lo (Z.shiftl hi 8) :: le16_units rest).
    f_equal. rewrite <- (IH rest) by (done || lia).
    apply list_fmap_ext. intros ? i _. apply le16_shift.
Qed.

Lemma rem2_even (n : nat) :
  (Z.rem (Z.of_nat n) 2 =? 0) = Z.even (Z.of_nat n).
Proof.
  rewrite Z.rem_mod_nonneg by lia.
  destruct (Z.even (Z.of_nat n)) eqn:E.
  - apply Z.eqb_eq. apply Z.even_spec in E. destruct E as [m ->].
    rewrite Z.mul_comm. apply Z.mod_mul. lia.
  - apply Z.eqb_neq. intros H.
    assert (Z.even (Z.of_nat n) = true) as E'; [|congruence].
    apply Z.even_spec. exists (Z.of_nat n / 2).
    pose proof (Z.div_mod (Z.of_nat n) 2). lia.
Qed.

Lemma even_half (L : nat) :
  Z.even (Z.of_nat L) = true ->
  L = (2 * Z.to_nat (Z.quot (Z.of_nat L) 2))%nat.
Proof.
  intros E. apply Z.even_spec in E. destruct E as [m Hm].
  rewrite Z.quot_div_nonneg by lia. rewrite Hm.
  rewrite (Z.mul_comm 2 m), Z.div_mul by lia. lia.
Qed.

(** What [GetPasswordFromKeyring] returns for a stored secret. *)
Lemma GetPasswordFromKeyring_value env service account secret w :
  service <> "" -> account <> "" ->
  keyring_Get env service account = Success secret ->
  fst (GetPasswordFromKeyring env service account w)
  = (if looks_utf16le secret && Z.even (GoString.len secret)
     then utf16.string_of_runes
            (utf16.Decode (le16_units (GoString.bytes secret)))
     else secret,
     None).
Proof.
  intros Hs Ha Hk. apply String.eqb_neq in Hs, Ha.
  unfold GetPasswordFromKeyring, bind, call, ret. rewrite Hs, Ha. simpl.
  rewrite Hk. unfold looks_utf16le.
  destruct ((1 <? GoString.len secret) && (GoString.index secret 1 =? 0));
    simpl; [|by world w].
  rewrite rem2_even, bytes_length. fold (GoString.len secret).
  destruct (Z.even (GoString.len secret)) eqn:E; simpl; [|done].
  rewrite for_range_assign_fmap, length_replicate.
  rewrite le16_fmap_units.
  - by world w.
  - rewrite bytes_length. by apply even_half.
  - apply bytes_range.
Qed.

(** C4 (amended): the UTF-16LE correction applies exactly when the secret
    is longer than one byte, its second byte is zero and its length is
    even; it then decodes the bytes as little-endian 16-bit code units into
    text, and otherwise the secret is returned unchanged.  The bytes
    41 00 42 00 yield "AB" and the ASCII bytes 41 42 yield "AB". *)
Theorem C4_keyring_utf16le_correction (env : Env) (service account : string)
    (secret : string) (w : World) :
  service <> "" -> account <> "" ->
  keyring_Get env service account = Success secret ->
  fst (GetPasswordFromKeyring env service account w)
  = (if looks_utf16le secret && Z.even (GoString.len secret)
     then utf16.string_of_runes
            (utf16.Decode (le16_units (GoString.bytes secret)))
     else secret,
     None)
  /\ (GoString.bytes secret = [0x41; 0x00; 0x42; 0x00] ->
      fst (GetPasswordFromKeyring env service account w) = ("AB", None))
  /\ (GoString.bytes secret = [0x41; 0x42] ->
      fst (GetPasswordFromKeyring env service account w) = ("AB", None)
      /\ secret = "AB").
Proof.
  intros Hs Ha Hk.
  pose proof (GetPasswordFromKeyring_value env service account secret w
                Hs Ha Hk) as Hv.
  split; [exact Hv|].
  assert (forall b, GoString.bytes secret = b -> secret = GoString.of_bytes b)
    as Hinv.
  { intros b <-. unfold GoString.of_bytes, GoString.bytes.
    rewrite <- list_fmap_compose.
    rewrite <- (string_of_list_ascii_of_string secret) at 1. f_equal.
    rewrite <- (list_fmap_id (list_ascii_of_string secret)) at 1.
    apply list_fmap_ext. intros ? c _. simpl.
    by rewrite N2Z.id, ascii_N_embedding. }
  split; intros Hb; apply Hinv in Hb; subst secret; rewrite Hv; done.
Qed.

Lemma C4_keyring_utf16le_correction_witness :
  fst (GetPasswordFromKeyring Scenario.env_ok "rolodex" "root@server"
         Scenario.w0) = ("AB", None)
  /\ fst (GetPasswordFromKeyring Scenario.env_ascii "rolodex" "root@server"
            Scenario.w0) = ("AB", None).
Proof.
  split.
  - refine (proj1 (proj2 (C4_keyring_utf16le_correction Scenario.env_ok
                            "rolodex" "root@server" Scenario.AB_utf16le
                            Scenario.w0 _ _ _)) _);
      try discriminate; reflexivity.
  - refine (proj1 (proj2 (proj2 (C4_keyring_utf16le_correction
                                   Scenario.env_ascii "rolodex" "root@server"
                                   "AB" Scenario.w0 _ _ _)) _));
      try discriminate; reflexivity.
Defined.

(** C4 as stated fails: for the three bytes 41 00 42 the heuristic of the
    claim matches, yet the code returns the bytes unchanged and not their
    decoding. *)
Lemma C4_counterexample_odd_length :
  looks_utf16le Scenario.odd_secret = true
  /\ fst (GetPasswordFromKeyring Scenario.env_odd "rolodex" "root@server"
            Scenario.w0) = (Scenario.odd_secret, None)
  /\ fst (GetPasswordFromKeyring Scenario.env_odd "rolodex" "root@server"
            Scenario.w0)
     <> (keyring_text_spec Scenario.odd_secret, None).
Proof. split; [reflexivity|]. split; [reflexivity|]. discriminate. Qed.

(** C10: a secret of odd length whose second byte is zero is returned
    unchanged: the decoding step is skipped (the function returns at the
    length test, before the line that logs the retrieval). *)
Theorem C10_keyring_odd_length_unchanged (env : Env)
    (service account secret : string) (w : World) :
  service <> "" -> account <> "" ->
  keyring_Get env service account = Success secret ->
  Z.odd (GoString.len secret) = true ->
  GoString.index secret 1 = 0 ->
  fst (GetPasswordFromKeyring env service account w) = (secret, None)
  /\ (1 < GoString.len secret ->
      snd (GetPasswordFromKeyring env service account w)
      = extend w [EvKeyringGet service account]).
Proof.
  intros Hs Ha Hk Hodd Hzero. split.
  - rewrite (GetPasswordFromKeyring_value env service account secret w
               Hs Ha Hk).
    rewrite <- Z.negb_odd, Hodd. simpl. by rewrite andb_false_r.
  - intros Hlen. apply String.eqb_neq in Hs, Ha.
    unfold GetPasswordFromKeyring, bind, call, ret. rewrite Hs, Ha. simpl.
    rewrite Hk, Hzero. apply Z.ltb_lt in Hlen. rewrite Hlen. simpl.
    rewrite rem2_even, bytes_length. fold (GoString.len secret).
    rewrite <- Z.negb_odd, Hodd. reflexivity.
Qed.

Lemma C10_keyring_odd_length_unchanged_witness :
  fst (GetPasswordFromKeyring Scenario.env_odd "rolodex" "root@server"
         Scenario.w0) = (Scenario.odd_secret, None).
Proof.
  refine (proj1 (C10_keyring_odd_length_unchanged Scenario.env_odd "rolodex"
                   "root@server" Scenario.odd_secret Scenario.w0 _ _ _ _ _));
    try discriminate; reflexivity.
Defined.

(** ** The IdentityFile source *)

Lemma expandHome_logger env identityFile w :
  fileLogger (snd (expandHome env identityFile w)) = fileLogger w.
Proof.
  unfold expandHome. destruct (GoString.HasPrefix identityFile "~"); [|done].
  unfold bind, call. simpl. destruct (os_UserHomeDir env); [done|].
  by world w.
Qed.

(** Finishes a goal that compares two runs once every answer is known. *)
Ltac same_run :=
  unfold extend, recorded, ret; cbn;
  rewrite <- ?app_assoc, ?app_nil_r; reflexivity.

(** C6: once the key file is read, the IdentityFile source first parses it
    without a passphrase; if that fails and a passphrase was supplied it
    retries with the passphrase; if that fails without a passphrase and the
    message says the key is encrypted, it yields nothing and logs that
    reason; every other parse failure, a wrong passphrase included, yields
    nothing as well. *)
Theorem C6_identity_file_parse_fallback (env : Env)
    (identityFile passphrase path keyData : string) (w : World) :
  identityFile <> "" ->
  fst (expandHome env identityFile w) = Some path ->
  os_ReadFile env path = Success keyData ->
  let run := TryIdentityFile env identityFile passphrase w in
  let w1 := extend (snd (expandHome env identityFile w))
              [EvReadFile path; EvParsePrivateKey keyData] in
  let w2 := extend w1 [EvParsePrivateKeyWithPassphrase keyData passphrase] in
  let logged w' line := extend w' (recorded w [EvLog line]) in
  (forall signer,
     ssh_ParsePrivateKey env keyData = Success signer ->
     run = (Some (ssh.PublicKeys signer),
            logged w1 ("Successfully loaded identity file: " +:+ path)))
  /\ (forall err,
        ssh_ParsePrivateKey env keyData = Failure err ->
        passphrase <> "" ->
        (forall signer,
           ssh_ParsePrivateKeyWithPassphrase env keyData passphrase
           = Success signer ->
           run = (Some (ssh.PublicKeys signer),
                  logged w2 ("Successfully loaded encrypted identity file: "
                             +:+ path)))
        /\ (forall err',
              ssh_ParsePrivateKeyWithPassphrase env keyData passphrase
              = Failure err' ->
              run = (None,
                     logged w2 ("Failed to parse identity file " +:+ path
                                +:+ " with passphrase: " +:+ Error err'))))
  /\ (forall err,
        ssh_ParsePrivateKey env keyData = Failure err ->
        passphrase = "" ->
        (GoString.Contains (Error err) "encrypted"
         || GoString.Contains (Error err) "passphrase" = true ->
         run = (None,
                logged w1 ("Identity file " +:+ path
                           +:+ " is encrypted but no passphrase provided")))
        /\ (GoString.Contains (Error err) "encrypted"
            || GoString.Contains (Error err) "passphrase" = false ->
            run = (None,
                   logged w1 ("Failed to parse identity file " +:+ path
                              +:+ ": " +:+ Error err)))).
Proof.
  intros Hne Hpath Hread run w1 w2 logged. subst run w1 w2 logged.
  apply String.eqb_neq in Hne.
  pose proof (expandHome_logger env identityFile w) as Hlog.
  unfold TryIdentityFile, bind, call. rewrite Hne.
  destruct (expandHome env identityFile w) as [p [b tr tm]].
  simpl in Hpath, Hlog. subst p. unfold recorded. rewrite <- Hlog. clear Hlog.
  simpl. rewrite Hread.
  split; [|split].
  - intros signer ->. destruct b; same_run.
  - intros err -> Hpass. apply String.eqb_neq in Hpass. rewrite Hpass. simpl.
    split.
    + intros signer ->. destruct b; same_run.
    + intros err' ->. destruct b; same_run.
  - intros err -> ->. simpl. split; intros ->; destruct b; same_run.
Qed.

Lemma C6_identity_file_parse_fallback_witness :
  fst (TryIdentityFile Scenario.env_encrypted "~/.ssh/id_ed25519" ""
         Scenario.w0) = None.
Proof.
  pose proof (C6_identity_file_parse_fallback Scenario.env_encrypted
                "~/.ssh/id_ed25519" "" "/home/u/.ssh/id_ed25519" "KEYDATA"
                Scenario.w0 ltac:(discriminate) eq_refl eq_refl) as H.
  destruct H as (_ & _ & H).
  destruct (H Scenario.encrypted_key eq_refl eq_refl) as [H' _].
  by rewrite (H' eq_refl).
Defined.

(** ** Substrings *)

Lemma prefix_append_l x s q :
  String.prefix x s = true -> String.prefix x (s +:+ q) = true.
Proof.
  revert s. induction x as [|c x IH]; intros s H; [by destruct (s +:+ q)|].
  destruct s as [|d s]; simpl in *; [done|].
  destruct (ascii_dec c d); [by apply IH|done].
Qed.

Lemma prefix_refl x : String.prefix x x = true.
Proof.
  induction x as [|c x IH]; simpl; [done|]. by destruct (ascii_dec c c).
Qed.

Lemma Contains_unfold s x :
  GoString.Contains s x
  = String.prefix x s
    || match s with
       | EmptyString => false
       | String _ s' => GoString.Contains s' x
       end.
Proof. by destruct s. Qed.

Lemma Contains_refl x : GoString.Contains x x = true.
Proof. rewrite Contains_unfold, prefix_refl. done. Qed.

Lemma Contains_append_r p s x :
  GoString.Contains s x = true -> GoString.Contains (p +:+ s) x = true.
Proof.
  intros H. induction p as [|c p IH]; [done|].
  change (String c p +:+ s) with (String c (p +:+ s)).
  rewrite Contains_unfold, IH. apply orb_true_r.
Qed.

Lemma Contains_append_l s q x :
  GoString.Contains s x = true -> GoString.Contains (s +:+ q) x = true.
Proof.
  induction s as [|c s IH]; intros H; rewrite Contains_unfold in H.
  - rewrite orb_false_r in H. rewrite Contains_unfold.
    by rewrite (prefix_append_l x "" q H).
  - apply orb_true_iff in H as [H|H].
    + rewrite Contains_unfold. by rewrite (prefix_append_l x _ q H).
    + change (String c s +:+ q) with (String c (s +:+ q)).
      rewrite Contains_unfold, (IH H). apply orb_true_r.
Qed.

Lemma Contains_Join errs sep e :
  In e errs -> GoString.Contains (GoString.Join errs sep) e = true.
Proof.
  induction errs as [|e1 [|e2 rest] IH]; intros Hin; [done| |].
  - destruct Hin as [->|[]]. apply Contains_refl.
  - change (GoString.Join (e1 :: e2 :: rest) sep)
      with (e1 +:+ sep +:+ GoString.Join (e2 :: rest) sep).
    destruct Hin as [->|Hin].
    + apply Contains_append_l, Contains_refl.
    + do 2 apply Contains_append_r. by apply IH.
Qed.

(** ** The session *)

Lemma filter_source_nil (f : Event -> bool) (t : list Event) :
  forallb source_event t = true ->
  (forall e, source_event e = true -> f e = false) ->
  List.filter f t = [].
Proof.
  intros Ht Hf. induction t as [|e t IH]; [done|].
  simpl in *. apply andb_true_iff in Ht as [He Ht].
  by rewrite (Hf e He), IH.
Qed.

Lemma source_not_MakeRaw e : source_event e = true -> is_MakeRaw e = false.
Proof. by destruct e. Qed.

Lemma source_not_RequestPty e :
  source_event e = true -> is_RequestPty e = false.
Proof. by destruct e. Qed.

Lemma source_not_server_dial e :
  source_event e = true -> server_dial e = false.
Proof. by destruct e. Qed.

Local Arguments String.append : simpl never.
Local Arguments fmt.d : simpl never.
Local Arguments strconv.Itoa : simpl never.
Local Arguments Z.of_nat : simpl never.

(** Splits a run of [StartSession] by the answers of the environment, in
    the order in which the code asks for them. *)
Ltac session_cases env :=
  repeat match goal with
  | |- context [net_DialTimeout env ?n ?a] =>
      destruct (net_DialTimeout env n a) as [?|] eqn:?; simpl
  | H : forall tr tm, buildAuthMethods env _ _ = _ |- _ =>
      rewrite H; simpl
  | |- context [(length ?chain =? 0)%nat] =>
      destruct (length chain =? 0)%nat eqn:?; simpl
  | |- context [ssh_Dial env ?a ?u ?ms] =>
      destruct (ssh_Dial env a u ms) as [[?|?]|] eqn:?; simpl
  | |- context [client_NewSession env] =>
      destruct (client_NewSession env) as [?|] eqn:?; simpl
  | |- context [term_MakeRaw env] =>
      destruct (term_MakeRaw env) as [?|] eqn:?; simpl
  | |- context [term_GetSize env] =>
      destruct (term_GetSize env) as [[? ?]|?] eqn:?; simpl
  | |- context [session_RequestPty env ?h ?w] =>
      destruct (session_RequestPty env h w) as [?|] eqn:?; simpl
  | |- context [session_Shell env] =>
      destruct (session_Shell env) as [?|] eqn:?; simpl
  end.

(** Opens a run of [StartSession] from the world [w]: the resolver's part
    is replaced by its chain and its calls, the rest is split by cases. *)
Ltac start_session env c w :=
  let b := fresh "b" in
  let chain := fresh "chain" in
  let tb := fresh "tb" in
  let Hsrc := fresh "Hsrc" in
  let Hrun := fresh "Hrun" in
  destruct w as [b ? ?];
  destruct (io_buildAuthMethods env c b) as (chain & tb & Hsrc & Hrun);
  unfold StartSession, fail, defer, logger.Fatal, logger.Fatalf, MakeRaw,
    Restore, call, bind, ret;
  destruct b; simpl; session_cases env.

(** Names the calls made by a run whose final world is known. *)
Ltac name_calls :=
  eexists; split;
  [ unfold extend; simpl; rewrite <- ?app_assoc; reflexivity | simpl ].

(** Proves that a list written out in full ends with the given events. *)
Ltac suffix_tail :=
  repeat first
    [ reflexivity
    | match goal with
      | |- _ `suffix_of` _ ++ _ => apply suffix_app_r
      | |- _ `suffix_of` _ :: _ => apply suffix_cons_r
      end ].

(** C2: in every run of [StartSession] raw mode is entered at most once, the
    terminal is back in its pre-call mode when the call returns, and
    whenever raw mode was entered the pre-call mode is restored before the
    session and the connection are closed, on every exit path. *)
Theorem C2_raw_mode_entered_once_and_restored (env : Env) (host : string)
    (port : Z) (user : string) (c : AuthConfig) (w : World) :
  exists t,
    snd (StartSession env host port user c w) = extend w t
    /\ (length (raw_entries t) <= 1)%nat
    /\ (raw_entries t <> [] -> term_MakeRaw env = None ->
        [EvRestore (terminal w); EvSessionClose; EvClientClose]
          `suffix_of` t).
Proof.
  start_session env c w; name_calls;
    unfold raw_entries; simpl; rewrite ?List.filter_app;
    rewrite ?(filter_source_nil _ _ Hsrc source_not_MakeRaw); simpl.
  all: split; [lia|]; intros Hraw Hmode; try congruence.
  all: suffix_tail.
Qed.

Lemma C2_raw_mode_entered_once_and_restored_witness :
  [EvRestore Scenario.cooked; EvSessionClose; EvClientClose]
    `suffix_of`
  trace (snd (StartSession Scenario.env_ok "example.org" 22 "root"
                Scenario.cfg_password Scenario.w0)).
Proof.
  destruct (C2_raw_mode_entered_once_and_restored Scenario.env_ok
              "example.org" 22 "root" Scenario.cfg_password Scenario.w0)
    as (t & Ht & _ & Hrestore).
  assert (t = trace (snd (StartSession Scenario.env_ok "example.org" 22
                            "root" Scenario.cfg_password Scenario.w0)))
    as Et by (rewrite Ht; reflexivity).
  rewrite <- Et. apply Hrestore; [|reflexivity].
  rewrite Et. vm_compute. discriminate.
Defined.

(** C9: the remote PTY is only ever requested with the dimensions of the
    local terminal, or with 80 columns by 24 rows when they cannot be read;
    and a session that gets as far as raw mode makes exactly one such
    request. *)
Theorem C9_pty_dimensions (env : Env) (host : string) (port : Z)
    (user : string) (c : AuthConfig) (w : World) :
  exists t,
    snd (StartSession env host port user c w) = extend w t
    /\ (forall err,
          term_GetSize env = Failure err ->
          Forall (eq (EvRequestPty "xterm-256color" 24 80 pty_modes))
            (pty_requests t))
    /\ (forall width height,
          term_GetSize env = Success (width, height) ->
          Forall (eq (EvRequestPty "xterm-256color" height width pty_modes))
            (pty_requests t))
    /\ (forall chain,
          net_DialTimeout env "tcp" (address_of host port) = None ->
          yields (buildAuthMethods env c) chain -> chain <> [] ->
          ssh_Dial env (address_of host port) user chain = None ->
          client_NewSession env = None ->
          term_MakeRaw env = None ->
          length (pty_requests t) = 1%nat).
Proof.
  pose proof (fun chain (Y : yields (buildAuthMethods env c) chain) =>
                Y {| fileLogger := fileLogger w; trace := [];
                     terminal := terminal w |}) as Hchain.
  unfold address_of.
  start_session env c w; simpl in Hchain; rewrite Hrun in Hchain;
    simpl in Hchain; name_calls;
    unfold pty_requests; simpl; rewrite ?List.filter_app;
    rewrite ?(filter_source_nil _ _ Hsrc source_not_RequestPty); simpl.
  all: split; [intros; simplify_eq; repeat constructor|].
  all: split; [intros; simplify_eq; repeat constructor|].
  all: intros chain' Hprobe Y Hne Hdial Hsession Hraw;
    try done; try congruence.
  all: specialize (Hchain _ Y); subst chain'; try congruence.
  all: destruct chain; simpl in *; congruence.
Qed.

Lemma C9_pty_dimensions_witness :
  pty_requests
    (trace (snd (StartSession Scenario.env_no_tty_size "example.org" 22 "root"
                   Scenario.cfg_password Scenario.w0)))
  = [EvRequestPty "xterm-256color" 24 80 pty_modes].
Proof.
  destruct (C9_pty_dimensions Scenario.env_no_tty_size "example.org" 22
              "root" Scenario.cfg_password Scenario.w0)
    as (t & Ht & Hdefault & _ & Hone).
  assert (t = trace (snd (StartSession Scenario.env_no_tty_size "example.org"
                            22 "root" Scenario.cfg_password Scenario.w0)))
    as Et by (rewrite Ht; reflexivity).
  rewrite <- Et.
  specialize (Hdefault _ eq_refl).
  specialize (Hone [ssh.Password "pw"; ssh.KeyboardInteractive (challenge "pw")]
                eq_refl).
  assert (length (pty_requests t) = 1%nat) as Hlen.
  { apply Hone; try reflexivity; try discriminate.
    intros w; world w; reflexivity. }
  destruct (pty_requests t) as [|e [|e' rest]]; simpl in Hlen; try lia.
  inversion Hdefault; subst. reflexivity.
Defined.

(** C1 (amended): for a bundle that resolves to the empty chain,
    [StartSession] first probes the server; when the probe succeeds it
    returns the no-authentication-method error, when the probe fails it
    returns the unreachable error; in both cases the probe is the only
    connection opened to the server, no SSH dial is attempted. *)
Theorem C1_empty_chain_fails_after_probe (env : Env) (host : string)
    (port : Z) (user : string) (c : AuthConfig) (w : World) :
  yields (buildAuthMethods env c) [] ->
  exists t,
    snd (StartSession env host port user c w) = extend w t
    /\ List.filter server_dial t
       = [EvNetDialTimeout "tcp" (address_of host port) 10]
    /\ (net_DialTimeout env "tcp" (address_of host port) = None ->
        fst (StartSession env host port user c w) = Some NoAuthMethod)
    /\ (forall err,
          net_DialTimeout env "tcp" (address_of host port) = Some err ->
          fst (StartSession env host port user c w)
          = Some (errorString
                    ("Cannot reach " +:+ address_of host port
                     +:+ " - TCP connection failed: " +:+ Error err
                     +:+ fmt.nl
                     +:+ "Check firewall, DNS, and network connectivity"))).
Proof.
  intros Y.
  pose proof (Y {| fileLogger := fileLogger w; trace := [];
                   terminal := terminal w |}) as Hchain.
  unfold address_of.
  start_session env c w; simpl in Hchain; rewrite Hrun in Hchain;
    simpl in Hchain; subst chain; try discriminate; name_calls;
    rewrite ?List.filter_app;
    rewrite ?(filter_source_nil _ _ Hsrc source_not_server_dial); simpl.
  all: split; [reflexivity|].
  all: split; [intros; simplify_eq; reflexivity|].
  all: intros; simplify_eq; reflexivity.
Qed.

Lemma C1_empty_chain_fails_after_probe_witness :
  fst (StartSession Scenario.env_ok "example.org" 22 "root"
         Scenario.cfg_empty Scenario.w0) = Some NoAuthMethod.
Proof.
  assert (yields (buildAuthMethods Scenario.env_ok Scenario.cfg_empty) [])
    as Y by (intros w; world w; reflexivity).
  destruct (C1_empty_chain_fails_after_probe Scenario.env_ok "example.org"
              22 "root" Scenario.cfg_empty Scenario.w0 Y)
    as (t & _ & _ & Hok & _).
  apply Hok. reflexivity.
Defined.

(** C1 as stated fails: the empty bundle resolves to the empty chain, but
    [StartSession] has dialled the server for the reachability probe
    before it returns the no-authentication-method error, and when the
    server is unreachable it returns the unreachable error instead. *)
Lemma C1_counterexample_probe_first :
  fst (buildAuthMethods Scenario.env_ok Scenario.cfg_empty Scenario.w0) = []
  /\ fst (StartSession Scenario.env_ok "example.org" 22 "root"
            Scenario.cfg_empty Scenario.w0) = Some NoAuthMethod
  /\ List.filter network_call
       (trace (snd (StartSession Scenario.env_ok "example.org" 22 "root"
                      Scenario.cfg_empty Scenario.w0)))
     = [EvNetDialTimeout "tcp" "example.org:22" 10]
  /\ fst (StartSession Scenario.env_unreachable "example.org" 22 "root"
            Scenario.cfg_empty Scenario.w0) <> Some NoAuthMethod.
Proof. repeat split; try reflexivity. discriminate. Qed.

(** C8 (the code at a rejection): when the server rejects every offered
    method, the client side of [ssh.Dial] fails with a plain error [text]
    (it never produces a [ServerAuthError]), and [StartSession] then takes
    its generic branch: the failure it returns is "SSH connection failed: "
    followed by [text] and nothing else, and in the log the FATAL line
    follows the dial directly, with no line that gives the count of methods
    tried. *)
Theorem C8_rejection_is_generic_failure (env : Env) (host : string)
    (port : Z) (user : string) (c : AuthConfig)
    (chain : list ssh.AuthMethod) (text : string) (w : World) :
  net_DialTimeout env "tcp" (address_of host port) = None ->
  yields (buildAuthMethods env c) chain -> chain <> [] ->
  ssh_Dial env (address_of host port) user chain
  = Some (errorString text) ->
  let msg := "SSH connection failed: " +:+ text in
  fst (StartSession env host port user c w) = Some (errorString msg)
  /\ (fileLogger w = true ->
      [EvSSHDial (address_of host port) user (length chain) 30;
       EvLog ("FATAL: " +:+ msg)]
        `suffix_of` trace (snd (StartSession env host port user c w))).
Proof.
  intros Hprobe Y Hne Hdial msg.
  split.
  - pose proof (Y {| fileLogger := fileLogger w; trace := [];
                     terminal := terminal w |}) as Hchain.
    unfold address_of in *. subst msg.
    start_session env c w; simpl in Hchain; rewrite Hrun in Hchain;
      simpl in Hchain; subst chain0; try congruence.
    all: destruct chain; simpl in *; congruence.
  - pose proof (Y {| fileLogger := fileLogger w; trace := [];
                     terminal := terminal w |}) as Hchain.
    unfold address_of in *. subst msg.
    start_session env c w; simpl in Hchain; rewrite Hrun in Hchain;
      simpl in Hchain; subst chain0; try congruence;
      try (destruct chain; simpl in *; congruence).
    all: intros Hlog; try discriminate.
    simplify_eq. rewrite <- !app_assoc. simpl. suffix_tail.
Qed.

Lemma C8_rejection_is_generic_failure_witness :
  length (fst (buildAuthMethods Scenario.env_rejected Scenario.cfg_password
                 Scenario.w0)) = 2%nat
  /\ fst (StartSession Scenario.env_rejected "example.org" 22 "root"
            Scenario.cfg_password Scenario.w0)
     = Some (errorString Scenario.rejected_message)
  /\ GoString.Contains Scenario.rejected_message (fmt.d 2) = false.
Proof.
  split; [reflexivity|]. split; [|reflexivity].
  refine (proj1 (C8_rejection_is_generic_failure Scenario.env_rejected
                   "example.org" 22 "root" Scenario.cfg_password
                   [ssh.Password "pw";
                    ssh.KeyboardInteractive (challenge "pw")]
                   Scenario.rejected_text Scenario.w0 _ _ _ _));
    try reflexivity; try discriminate.
  intros w; world w; reflexivity.
Defined.


(** ** The Agent source *)

Lemma agent_network_code socket :
  (if (0 <? GoString.len socket) && (GoString.index socket 0 =? 92)
   then "pipe" else "unix") = agent_network socket.
Proof.
  unfold agent_network, GoString.HasPrefix, GoString.len, GoString.index,
    GoString.bytes.
  destruct socket as [|ch rest]; [done|].
  change (String.prefix "\" (String ch rest))
    with (if ascii_dec "\"%char ch then String.prefix "" rest else false).
  replace (String.prefix "" rest) with true by (by destruct rest).
  simpl length. simpl lookup. simpl default.
  replace (0 <? Z.of_nat (S (String.length rest))) with true
    by (symmetry; apply Z.ltb_lt; lia).
  simpl andb.
  destruct (ascii_dec "\"%char ch) as [<-|Hne]; [done|].
  destruct (Z.eqb_spec (Z.of_N (N_of_ascii ch)) 92) as [E|]; [|done].
  exfalso. apply Hne.
  assert (N_of_ascii ch = 92%N) as Hch by lia.
  by rewrite <- (ascii_N_embedding ch), Hch.
Qed.

(** X1: [TrySSHAgent] makes no network call when SSH_AUTH_SOCK is unset;
    otherwise it dials the agent address exactly once, as a named pipe when
    the address starts with a backslash and as a Unix socket otherwise, and
    it returns a method exactly when that dial succeeded. *)
Theorem X1_agent_dials_once (env : Env) (w : World) :
  let socket := os_Getenv env "SSH_AUTH_SOCK" in
  (socket = "" ->
   TrySSHAgent env w
   = (None,
      extend w (recorded w
        [EvGetenv "SSH_AUTH_SOCK";
         EvLog "SSH agent not available (SSH_AUTH_SOCK not set)"])))
  /\ (socket <> "" ->
      exists t,
        snd (TrySSHAgent env w) = extend w t
        /\ List.filter network_call t
           = [EvNetDial (agent_network socket) socket]
        /\ fst (TrySSHAgent env w)
           = match net_Dial env (agent_network socket) socket with
             | None =>
                 Some (ssh.PublicKeysCallback (agent_network socket) socket)
             | Some _ => None
             end).
Proof.
  intros socket. subst socket. unfold TrySSHAgent, bind, call. simpl.
  split.
  - intros ->. simpl. world w; same_run.
  - intros Hne. apply String.eqb_neq in Hne. rewrite Hne.
    rewrite agent_network_code.
    destruct (net_Dial env _ _); world w; simpl;
      (eexists; split;
       [unfold extend; simpl; rewrite <- ?app_assoc; reflexivity|done]).
Qed.

Lemma X1_agent_dials_once_witness :
  fst (TrySSHAgent Scenario.env_ok Scenario.w0)
  = Some (ssh.PublicKeysCallback "unix" "/tmp/agent.sock").
Proof.
  destruct (X1_agent_dials_once Scenario.env_ok Scenario.w0) as [_ H].
  destruct (H ltac:(discriminate)) as (t & _ & _ & ->). reflexivity.
Defined.

(** ** The IdentityFile source, continued *)

(** Closes a case of X2 in which a signer was found. *)
Ltac identity_found :=
  do 3 eexists;
  split; [reflexivity|]; split; [done|];
  split; [first [reflexivity | eexists; split; reflexivity]|];
  split; [eassumption|]; eauto 10.

Lemma TryIdentityFile_found (env : Env)
    (identityFile passphrase : string) (w : World) (m : ssh.AuthMethod) :
  fst (TryIdentityFile env identityFile passphrase w) = Some m ->
  exists path keyData signer,
    m = ssh.PublicKeys signer
    /\ identityFile <> ""
    /\ (if GoString.HasPrefix identityFile "~"
        then exists home,
               os_UserHomeDir env = Success home
               /\ path = filepath_Join env home (GoString.from identityFile 1)
        else path = identityFile)
    /\ os_ReadFile env path = Success keyData
    /\ (ssh_ParsePrivateKey env keyData = Success signer
        \/ (passphrase <> ""
            /\ (exists err, ssh_ParsePrivateKey env keyData = Failure err)
            /\ ssh_ParsePrivateKeyWithPassphrase env keyData passphrase
               = Success signer)).
Proof.
  unfold TryIdentityFile, expandHome, bind, call.
  destruct (String.eqb_spec identityFile "") as [|Hne]; [done|].
  destruct (GoString.HasPrefix identityFile "~") eqn:Hp; simpl.
  - destruct (os_UserHomeDir env) as [home|e] eqn:Hh; simpl;
      [|by world w].
    destruct (os_ReadFile env _) as [keyData|e] eqn:Hr; simpl; [|by world w].
    destruct (ssh_ParsePrivateKey env keyData) as [signer|e] eqn:Hk; simpl.
    + world w; intros [= <-]; identity_found.
    + destruct (String.eqb_spec passphrase "") as [|Hpass]; simpl.
      * destruct (_ || _); by world w.
      * destruct (ssh_ParsePrivateKeyWithPassphrase env keyData passphrase)
          as [signer|e'] eqn:Hk'; simpl; [|by world w].
        world w; intros [= <-]; identity_found.
  - destruct (os_ReadFile env _) as [keyData|e] eqn:Hr; simpl; [|by world w].
    destruct (ssh_ParsePrivateKey env keyData) as [signer|e] eqn:Hk; simpl.
    + world w; intros [= <-]; identity_found.
    + destruct (String.eqb_spec passphrase "") as [|Hpass]; simpl.
      * destruct (_ || _); by world w.
      * destruct (ssh_ParsePrivateKeyWithPassphrase env keyData passphrase)
          as [signer|e'] eqn:Hk'; simpl; [|by world w].
        world w; intros [= <-]; identity_found.
Qed.

(** X2: [TryIdentityFile] never fabricates a method: whatever it returns is
    the public-key method of a signer that the parser produced from the
    data read at the (home-expanded) path, either without a passphrase or,
    after that failed, with the supplied non-empty passphrase. *)
Theorem X2_identity_method_comes_from_parser (env : Env)
    (identityFile passphrase : string) (w : World) (m : ssh.AuthMethod) :
  fst (TryIdentityFile env identityFile passphrase w) = Some m ->
  exists path keyData signer,
    m = ssh.PublicKeys signer
    /\ identityFile <> ""
    /\ (if GoString.HasPrefix identityFile "~"
        then exists home,
               os_UserHomeDir env = Success home
               /\ path = filepath_Join env home (GoString.from identityFile 1)
        else path = identityFile)
    /\ os_ReadFile env path = Success keyData
    /\ (ssh_ParsePrivateKey env keyData = Success signer
        \/ (passphrase <> ""
            /\ (exists err, ssh_ParsePrivateKey env keyData = Failure err)
            /\ ssh_ParsePrivateKeyWithPassphrase env keyData passphrase
               = Success signer)).
Proof. apply TryIdentityFile_found. Qed.

Lemma X2_identity_method_comes_from_parser_witness :
  exists path keyData signer,
    ssh.PublicKeys Scenario.key = ssh.PublicKeys signer
    /\ os_ReadFile Scenario.env_ok path = Success keyData
    /\ path = "/home/u/.ssh/id_ed25519".
Proof.
  destruct (X2_identity_method_comes_from_parser Scenario.env_ok
              "~/.ssh/id_ed25519" "" Scenario.w0 (ssh.PublicKeys Scenario.key)
              eq_refl)
    as (path & keyData & signer & Hm & _ & Hpath & Hread & _).
  exists path, keyData, signer. repeat split; try done.
  simpl in Hpath. destruct Hpath as (home & [= <-] & ->). reflexivity.
Defined.

(** ** The shape of the chain *)

Lemma TrySSHAgent_kind env w a :
  fst (TrySSHAgent env w) = Some a -> is_public_key a = true.
Proof.
  unfold TrySSHAgent, bind, call. simpl.
  destruct (String.eqb _ _); [by world w|].
  destruct (net_Dial env _ _); world w; simpl; intros [= <-]; done.
Qed.

Lemma TryIdentityFile_kind env identityFile passphrase w k :
  fst (TryIdentityFile env identityFile passphrase w) = Some k ->
  is_public_key k = true.
Proof.
  intros H. apply TryIdentityFile_found in H.
  by destruct H as (? & ? & ? & -> & _).
Qed.

(** Hides what the goal says about [t] behind a local name [shape], so
    that case analysis on the run does not touch it. *)
Ltac protect_shape t :=
  match goal with
  | |- ?G =>
      match eval pattern t in G with
      | ?P _ => set (shape := P); change (shape t)
      end
  end.

(** X3: in every chain the resolver builds, all public-key methods come
    before all password-like methods; there are at most two of the former
    and at most four of the latter, so at most six methods in all. *)
Theorem X3_chain_keys_before_passwords (env : Env) (c : AuthConfig)
    (w : World) :
  let chain := fst (buildAuthMethods env c w) in
  chain = List.filter is_public_key chain
          ++ List.filter is_password_like chain
  /\ (length (List.filter is_public_key chain) <= 2)%nat
  /\ (length (List.filter is_password_like chain) <= 4)%nat
  /\ (length chain <= 6)%nat.
Proof.
  intros chain. subst chain. rewrite buildAuthMethods_resolve_spec.
  protect_shape (fst (resolve_spec env c w)).
  unfold resolve_spec, AgentSource, IdentityFileSource, KeyringSource,
    PasswordSource, bind, ret.
  destruct (logger.Printf _ w) as [[] w1].
  assert (forall w2 w3 a, TrySSHAgent env w2 = (Some a, w3) ->
                          is_public_key a = true /\ is_password_like a = false)
    as Hagent.
  { intros w2 w3 a E. pose proof (TrySSHAgent_kind env w2 a) as H.
    rewrite E in H. specialize (H eq_refl). by destruct a. }
  assert (forall f p w2 w3 k, TryIdentityFile env f p w2 = (Some k, w3) ->
                              is_public_key k = true
                              /\ is_password_like k = false)
    as Hkey.
  { intros f p w2 w3 k E. pose proof (TryIdentityFile_kind env f p w2 k) as H.
    rewrite E in H. specialize (H eq_refl). by destruct k. }
  repeat match goal with
         | |- context [TrySSHAgent env ?w] =>
             destruct (TrySSHAgent env w) as [[?|] ?] eqn:?
         | |- context [TryIdentityFile env ?f ?p ?w] =>
             destruct (TryIdentityFile env f p w) as [[?|] ?] eqn:?
         | |- context [GetPasswordFromKeyring env ?s ?a ?w] =>
             destruct (GetPasswordFromKeyring env s a w) as [[? [?|]] ?]
         | |- context [TryPasswordAuth ?p ?w] => rewrite TryPasswordAuth_run
         | |- context [logger.Printf ?l ?w] =>
             destruct (logger.Printf l w) as [[] ?]
         | |- context [if ?b then _ else _] => destruct b
         | _ => progress simpl
         end;
    repeat match goal with
           | E : TrySSHAgent _ _ = (Some ?a, _) |- _ =>
               apply Hagent in E; destruct E as [E _];
               destruct a; try discriminate E; clear E
           | E : TryIdentityFile _ _ _ _ = (Some ?k, _) |- _ =>
               apply Hkey in E; destruct E as [E _];
               destruct k; try discriminate E; clear E
           end;
    subst shape; simpl; (split; [reflexivity|]); simpl; lia.
Qed.

(** ** The keyring correction, continued *)

Lemma GetPasswordFromKeyring_yields env service account secret :
  service <> "" -> account <> "" ->
  keyring_Get env service account = Success secret ->
  yields (GetPasswordFromKeyring env service account)
    (corrected_secret secret, None).
Proof. intros Hs Ha Hk w. by apply GetPasswordFromKeyring_value. Qed.

Lemma encodeRune_nonempty r : utf16.encodeRune r <> [].
Proof. unfold utf16.encodeRune. repeat case_match; discriminate. Qed.

Lemma Decode_nonempty s : s <> [] -> utf16.Decode s <> [].
Proof.
  destruct s as [|r rest]; [done|]. intros _. simpl.
  repeat case_match; discriminate.
Qed.

Lemma string_of_runes_nonempty runes :
  runes <> [] -> utf16.string_of_runes runes <> "".
Proof.
  destruct runes as [|r rest]; [done|]. intros _.
  unfold utf16.string_of_runes, GoString.of_bytes. simpl.
  pose proof (encodeRune_nonempty r) as Hr.
  destruct (utf16.encodeRune r); [done|]. discriminate.
Qed.

Lemma corrected_secret_nonempty secret :
  secret <> "" -> corrected_secret secret <> "".
Proof.
  intros Hne. unfold corrected_secret, looks_utf16le.
  destruct ((1 <? GoString.len secret) && _ && _) eqn:E; [|done].
  apply string_of_runes_nonempty, Decode_nonempty.
  apply andb_true_iff in E as [E _]. apply andb_true_iff in E as [E _].
  apply Z.ltb_lt in E. unfold GoString.len in E.
  rewrite <- bytes_length in E.
  destruct (GoString.bytes secret) as [|lo [|hi rest]]; simpl in *;
    (lia || discriminate).
Qed.

(** X4: a non-empty secret stored in the keyring never becomes empty under
    the correction, so it always contributes its two methods: the
    password-like part of the chain is exactly the corrected secret's
    password and keyboard-interactive methods, followed by those of the
    explicit password when one is configured. *)
Theorem X4_keyring_secret_contributes_two (env : Env) (c : AuthConfig)
    (secret : string) (w : World) :
  KeyringService c <> "" -> KeyringAccount c <> "" ->
  keyring_Get env (KeyringService c) (KeyringAccount c) = Success secret ->
  secret <> "" ->
  corrected_secret secret <> ""
  /\ List.filter is_password_like (fst (buildAuthMethods env c w))
     = [ssh.Password (corrected_secret secret);
        ssh.KeyboardInteractive (challenge (corrected_secret secret))]
       ++ (if String.eqb (Password c) "" then []
           else [ssh.Password (Password c);
                 ssh.KeyboardInteractive (challenge (Password c))]).
Proof.
  intros Hs Ha Hk Hne.
  pose proof (corrected_secret_nonempty secret Hne) as Hpw.
  split; [done|].
  pose proof (GetPasswordFromKeyring_yields env _ _ _ Hs Ha Hk) as Y.
  apply String.eqb_neq in Hs, Ha, Hpw.
  rewrite buildAuthMethods_resolve_spec.
  set (pw := corrected_secret secret) in *. clearbody pw.
  destruct (String.eqb (Password c) "") eqn:Hp;
  protect_shape (fst (resolve_spec env c w));
  unfold resolve_spec, AgentSource, IdentityFileSource, KeyringSource,
    PasswordSource, bind, ret; rewrite Hs, Ha, Hp; simpl;
  destruct (logger.Printf _ w) as [[] w1];
  repeat match goal with
         | |- context [TrySSHAgent env ?w] =>
             destruct (TrySSHAgent env w) as [[?|] ?] eqn:?
         | |- context [TryIdentityFile env ?f ?p ?w] =>
             destruct (TryIdentityFile env f p w) as [[?|] ?] eqn:?
         | |- context [GetPasswordFromKeyring env ?s ?a ?w] =>
             destruct (yields_run _ _ Y w) as [? ->]; simpl; rewrite Hpw; simpl
         | |- context [TryPasswordAuth ?p ?w] => rewrite TryPasswordAuth_run
         | |- context [logger.Printf ?l ?w] =>
             destruct (logger.Printf l w) as [[] ?]
         | |- context [if ?b then _ else _] => destruct b
         | _ => progress simpl
         end;
    repeat match goal with
           | E : TrySSHAgent _ ?w = (Some ?a, _) |- _ =>
               let H := fresh in
               pose proof (TrySSHAgent_kind env w a) as H;
               rewrite E in H; specialize (H eq_refl); clear E;
               destruct a; try discriminate H; clear H
           | E : TryIdentityFile _ ?f ?p ?w = (Some ?k, _) |- _ =>
               let H := fresh in
               pose proof (TryIdentityFile_kind env f p w k) as H;
               rewrite E in H; specialize (H eq_refl); clear E;
               destruct k; try discriminate H; clear H
           end;
    subst shape; reflexivity.
Qed.

Lemma X4_keyring_secret_contributes_two_witness :
  List.filter is_password_like
    (fst (buildAuthMethods Scenario.env_ok Scenario.cfg_all Scenario.w0))
  = [ssh.Password "AB"; ssh.KeyboardInteractive (challenge "AB");
     ssh.Password "pw"; ssh.KeyboardInteractive (challenge "pw")].
Proof.
  refine (proj2 (X4_keyring_secret_contributes_two Scenario.env_ok
                   Scenario.cfg_all Scenario.AB_utf16le Scenario.w0
                   _ _ _ _));
    try discriminate; reflexivity.
Defined.

Lemma of_bytes_bytes s : GoString.of_bytes (GoString.bytes s) = s.
Proof.
  unfold GoString.of_bytes, GoString.bytes. rewrite <- list_fmap_compose.
  rewrite <- (string_of_list_ascii_of_string s) at 2. f_equal.
  rewrite <- (list_fmap_id (list_ascii_of_string s)) at 2.
  apply list_fmap_ext. intros ? ch _. simpl.
  by rewrite N2Z.id, ascii_N_embedding.
Qed.

Lemma bytes_of_bytes (l : list Z) :
  Forall (fun z => 0 <= z < 256) l -> GoString.bytes (GoString.of_bytes l) = l.
Proof.
  intros Hl. unfold GoString.of_bytes, GoString.bytes.
  rewrite list_ascii_of_string_of_list_ascii, <- list_fmap_compose.
  rewrite <- (list_fmap_id l) at 2.
  apply Forall_fmap_ext_1. eapply Forall_impl; [exact Hl|].
  intros z Hz. simpl in *. rewrite N_ascii_embedding by lia. lia.
Qed.

Lemma len_bytes s : GoString.len s = Z.of_nat (length (GoString.bytes s)).
Proof. unfold GoString.len. by rewrite bytes_length. Qed.

Lemma le16_units_interleaved (l : list Z) :
  le16_units (flat_map (fun b => [b; 0]) l) = l.
Proof.
  induction l as [|b l IH]; [done|]. simpl. rewrite IH.
  by rewrite Z.shiftl_0_l, Z.lor_0_r.
Qed.

Lemma length_interleaved (l : list Z) :
  length (flat_map (fun b => [b; 0]) l) = (2 * length l)%nat.
Proof. induction l as [|b l IH]; simpl; [done|]. rewrite IH. lia. Qed.

Lemma Decode_below_surrogates (l : list Z) :
  Forall (fun z => z < utf16.surr1) l -> utf16.Decode l = l.
Proof.
  induction 1 as [|z l Hz _ IH]; [done|]. simpl.
  apply Z.ltb_lt in Hz. rewrite Hz. simpl. by rewrite IH.
Qed.

Lemma string_of_runes_ascii (l : list Z) :
  Forall (fun z => 0 <= z < 128) l ->
  utf16.string_of_runes l = GoString.of_bytes l.
Proof.
  intros Hl. unfold utf16.string_of_runes. f_equal.
  induction Hl as [|z l Hz _ IH]; [done|].
  rewrite fmap_cons. cbn [concat]. rewrite IH.
  unfold utf16.encodeRune, utf16.maxRune, utf16.surr1, utf16.surr3.
  replace (z <? 0) with false by (symmetry; apply Z.ltb_ge; lia).
  replace (1114111 <? z) with false by (symmetry; apply Z.ltb_ge; lia).
  replace (55296 <=? z) with false by (symmetry; apply Z.leb_gt; lia).
  replace (z <=? 127) with true by (symmetry; apply Z.leb_le; lia).
  done.
Qed.

Lemma corrected_secret_utf16le_of_ascii (text : string) :
  text <> "" ->
  Forall (fun b => b < 128) (GoString.bytes text) ->
  corrected_secret (utf16le_of_ascii text) = text.
Proof.
  intros Hne Hascii.
  assert (Forall (fun z => 0 <= z < 128) (GoString.bytes text)) as Hl.
  { pose proof (bytes_range text) as Hr. rewrite Forall_forall in *.
    intros z Hz. specialize (Hr z Hz). specialize (Hascii z Hz). lia. }
  assert (GoString.bytes (utf16le_of_ascii text)
          = flat_map (fun b => [b; 0]) (GoString.bytes text)) as Hb.
  { unfold utf16le_of_ascii. apply bytes_of_bytes. clear Hascii.
    induction Hl as [|z l Hz _ IH]; simpl; [done|].
    constructor; [lia|]. constructor; [lia|]. exact IH. }
  unfold corrected_secret, looks_utf16le, GoString.index.
  rewrite len_bytes, Hb, length_interleaved.
  destruct (GoString.bytes text) as [|b l] eqn:E.
  { exfalso. apply Hne. rewrite <- (of_bytes_bytes text), E. done. }
  change (default 0 (flat_map (fun b => [b; 0]) (b :: l) !! Z.to_nat 1))
    with 0.
  rewrite Nat2Z.inj_mul, Z.even_mul.
  replace (1 <? Z.of_nat 2 * Z.of_nat (length (b :: l))) with true
    by (symmetry; apply Z.ltb_lt; simpl length; lia).
  cbn [andb orb Z.eqb Z.even Z.of_nat Pos.of_succ_nat Pos.succ].
  rewrite le16_units_interleaved, Decode_below_surrogates.
  - rewrite string_of_runes_ascii by done. rewrite <- E.
    apply of_bytes_bytes.
  - eapply Forall_impl; [exact Hl|]. unfold utf16.surr1. simpl. lia.
Qed.

(** X5: round trip of the correction: when the keyring returns an ASCII
    text with every byte followed by a zero byte (its UTF-16LE form),
    [GetPasswordFromKeyring] returns the text itself. *)
Theorem X5_keyring_utf16le_ascii_round_trip (env : Env)
    (service account text : string) (w : World) :
  service <> "" -> account <> "" ->
  text <> "" ->
  Forall (fun b => b < 128) (GoString.bytes text) ->
  keyring_Get env service account = Success (utf16le_of_ascii text) ->
  fst (GetPasswordFromKeyring env service account w) = (text, None).
Proof.
  intros Hs Ha Hne Hascii Hk.
  rewrite (GetPasswordFromKeyring_value env service account _ w Hs Ha Hk).
  f_equal. by apply corrected_secret_utf16le_of_ascii.
Qed.

Lemma X5_keyring_utf16le_ascii_round_trip_witness :
  fst (GetPasswordFromKeyring Scenario.env_ok "rolodex" "root@server"
         Scenario.w0) = ("AB", None).
Proof.
  apply (X5_keyring_utf16le_ascii_round_trip Scenario.env_ok "rolodex"
           "root@server" "AB" Scenario.w0);
    try discriminate; try reflexivity.
  repeat constructor.
Defined.

(** ** What the resolver writes to the log *)

Lemma io_sources_tail env c (line : nat -> string) :
  io_only source_event
    (bind (AgentSource env c) (fun a =>
     bind (IdentityFileSource env c) (fun i =>
     bind (KeyringSource env c) (fun k =>
     bind (PasswordSource c) (fun p =>
     bind (logger.Printf (line (length (a ++ i ++ k ++ p)))) (fun _ =>
     ret (a ++ i ++ k ++ p))))))).
Proof.
  unfold AgentSource, IdentityFileSource, KeyringSource, PasswordSource.
  repeat first
    [ apply io_TryPasswordAuth | apply io_TrySSHAgent
    | apply io_TryIdentityFile | apply io_GetPasswordFromKeyring | io_step ].
Qed.

(** X7: with the logger initialised, the first thing the resolver does is
    write a log line that contains the plaintext password and the key
    passphrase of the bundle. *)
Theorem X7_resolver_logs_secrets (env : Env) (c : AuthConfig) (w : World) :
  fileLogger w = true ->
  exists line rest,
    trace (snd (buildAuthMethods env c w)) = trace w ++ EvLog line :: rest
    /\ GoString.Contains line (Password c) = true
    /\ GoString.Contains line (IdentityPassphrase c) = true.
Proof.
  destruct w as [b tr tm]. simpl. intros ->.
  rewrite buildAuthMethods_resolve_spec. unfold resolve_spec.
  destruct (io_sources_tail env c
              (fun n => "Total authentication methods configured: "
                        +:+ fmt.d (Z.of_nat n)) true)
    as (chain & t & _ & Hrun).
  unfold bind at 1. simpl. rewrite Hrun. simpl.
  eexists _, t. split; [by rewrite <- app_assoc|].
  unfold fmt.v_AuthConfig.
  split; do 2 apply Contains_append_r; apply Contains_append_l;
    apply Contains_Join; simpl; auto 10.
Qed.

Lemma X7_resolver_logs_secrets_witness :
  exists line rest,
    trace (snd (buildAuthMethods Scenario.env_ok Scenario.cfg_password
                  Scenario.w0))
    = EvLog line :: rest
    /\ GoString.Contains line "pw" = true.
Proof.
  destruct (X7_resolver_logs_secrets Scenario.env_ok Scenario.cfg_password
              Scenario.w0 eq_refl) as (line & rest & Ht & Hp & _).
  by exists line, rest.
Defined.

(** ** Logging does not change what the package does *)

Lemma visible_app b t1 t2 : visible b (t1 ++ t2) = visible b t1 ++ visible b t2.
Proof. destruct b; [done|]. apply List.filter_app. Qed.

Lemma lt_ret {A} (a : A) : log_transparent (ret a).
Proof.
  intros tm. exists a, [], tm. intros b tr. unfold ret.
  destruct b; simpl; by rewrite app_nil_r.
Qed.

Lemma lt_bind {A B} (m : M A) (k : A -> M B) :
  log_transparent m -> (forall a, log_transparent (k a)) ->
  log_transparent (bind m k).
Proof.
  intros Hm Hk tm.
  destruct (Hm tm) as (a & t1 & tm1 & E1).
  destruct (Hk a tm1) as (c & t2 & tm2 & E2).
  exists c, (t1 ++ t2), tm2. intros b tr. unfold bind.
  by rewrite E1, E2, visible_app, app_assoc.
Qed.

Lemma lt_emit e : is_log e = false -> log_transparent (emit e).
Proof.
  intros He tm. exists tt, [e], tm. intros b tr.
  destruct b; simpl; [done|]. unfold calls. simpl. by rewrite He.
Qed.

Lemma lt_call {A} e (a : A) : is_log e = false -> log_transparent (call e a).
Proof.
  intros He. unfold call. apply lt_bind; [by apply lt_emit|].
  intros _. apply lt_ret.
Qed.

Lemma lt_Printf line : log_transparent (logger.Printf line).
Proof.
  intros tm. exists tt, [EvLog line], tm. intros b tr.
  destruct b; simpl; [done|]. unfold logger.Printf. simpl.
  by rewrite app_nil_r.
Qed.

Lemma lt_MakeRaw env : log_transparent (MakeRaw env).
Proof.
  intros tm. unfold MakeRaw, bind. simpl.
  destruct (term_MakeRaw env) as [err|].
  - exists (Failure err), [EvMakeRaw], tm. intros b tr. by destruct b.
  - exists (Success tm), [EvMakeRaw],
      {| raw := true; settings := settings tm |}.
    intros b tr. by destruct b.
Qed.

Lemma lt_Restore oldState : log_transparent (Restore oldState).
Proof.
  intros tm. exists tt, [EvRestore oldState], oldState. intros b tr.
  by destruct b.
Qed.

(** One step of a proof that a function does not depend on the logger. *)
Ltac lt_step :=
  first
    [ apply lt_ret
    | apply lt_Printf
    | apply lt_MakeRaw
    | apply lt_Restore
    | apply lt_call; reflexivity
    | apply lt_emit; reflexivity
    | apply lt_bind; [| intros ? ]
    | match goal with
      | |- log_transparent (if ?c then _ else _) => destruct c
      | |- log_transparent (match ?x with _ => _ end) => destruct x
      | |- log_transparent (let '(_, _) := ?x in _) => destruct x
      end ].

Lemma lt_buildAuthMethods env config :
  log_transparent (buildAuthMethods env config).
Proof.
  unfold buildAuthMethods, TrySSHAgent, TryIdentityFile, expandHome,
    GetPasswordFromKeyring, TryPasswordAuth.
  cbv zeta. repeat lt_step.
Qed.

(** X8: [StartSession] does not depend on the logger: for a given
    environment, arguments and starting terminal mode, the returned error,
    the final terminal mode and the sequence of calls are the same whether
    the logger is initialised or not; without it only the log lines are
    missing from the trace. *)
Theorem X8_session_independent_of_logger (env : Env) (host : string)
    (port : Z) (user : string) (c : AuthConfig) (tm : TermState) :
  exists result t tm',
    forall b tr,
      StartSession env host port user c
        {| fileLogger := b; trace := tr; terminal := tm |}
      = (result,
         {| fileLogger := b; trace := tr ++ visible b t; terminal := tm' |}).
Proof.
  revert tm. change (log_transparent (StartSession env host port user c)).
  unfold StartSession, fail, defer, logger.Fatal, logger.Fatalf.
  cbv zeta.
  repeat first [ apply lt_buildAuthMethods | lt_step ].
Qed.

(** ** Key files on disk (identity.go) *)

Lemma testbit_36 (n : Z) :
  0 <= n -> Z.testbit 36 n = (n =? 2) || (n =? 5).
Proof.
  intros Hn. destruct (Z_lt_le_dec n 6) as [Hlt|Hge].
  - assert (n = 0 \/ n = 1 \/ n = 2 \/ n = 3 \/ n = 4 \/ n = 5) as H by lia.
    destruct H as [->|[->|[->|[->|[->| ->]]]]]; reflexivity.
  - rewrite Z.bits_above_log2 by (simpl; lia).
    symmetry. apply orb_false_iff. split; apply Z.eqb_neq; lia.
Qed.

Lemma land_36_zero (p : Z) :
  (Z.land p 36 =? 0) = negb (Z.testbit p 5 || Z.testbit p 2).
Proof.
  destruct (Z.eqb_spec (Z.land p 36) 0) as [E|Hne].
  - pose proof (Z.land_spec p 36 5) as H5.
    pose proof (Z.land_spec p 36 2) as H2.
    rewrite E, Z.bits_0 in H5, H2.
    rewrite testbit_36 in H5, H2 by lia.
    change ((5 =? 2) || (5 =? 5)) with true in H5.
    change ((2 =? 2) || (2 =? 5)) with true in H2.
    rewrite andb_true_r in H5, H2. by rewrite <- H5, <- H2.
  - destruct (Z.testbit p 5 || Z.testbit p 2) eqn:Hb; [done|].
    exfalso. apply Hne. apply orb_false_iff in Hb as [H5 H2].
    apply Z.bits_inj'. intros n Hn.
    rewrite Z.land_spec, Z.bits_0, testbit_36 by done.
    destruct (Z.eqb_spec n 2) as [->|]; [by rewrite H2|].
    destruct (Z.eqb_spec n 5) as [->|]; [by rewrite H5|].
    apply andb_false_r.
Qed.

(** X9: [ValidateKeyFile] never rejects a key file for its permissions: for
    every regular file it returns nil, and it writes a warning to the log
    exactly when the group-read or the other-read permission bit is set. *)
Theorem X9_validate_key_file_permissions (disk : StatEnv) (path : string)
    (info : FileInfo) (w : World) :
  os_Stat disk path = Success info ->
  IsDir info = false ->
  ValidateKeyFile disk path w
  = (None,
     extend w (recorded w
       (if Z.testbit (Perm info) 5 || Z.testbit (Perm info) 2
        then [EvLog ("Warning: key file " +:+ path
                     +:+ " has overly permissive permissions: "
                     +:+ FileMode_String disk (Perm info))]
        else []))).
Proof.
  intros Hstat Hdir. unfold ValidateKeyFile. rewrite Hstat, Hdir.
  cbv zeta. rewrite land_36_zero, negb_involutive.
  destruct (Z.testbit (Perm info) 5 || Z.testbit (Perm info) 2);
    unfold bind; world w; same_run.
Qed.

Lemma X9_validate_key_file_permissions_witness :
  ValidateKeyFile KeyScenario.disk "/home/u/.ssh/id_ed25519" Scenario.w0
  = (None,
     extend Scenario.w0
       [EvLog "Warning: key file /home/u/.ssh/id_ed25519 has overly permissive permissions: -rw-r--r--"]).
Proof.
  exact (X9_validate_key_file_permissions KeyScenario.disk
           "/home/u/.ssh/id_ed25519" {| IsDir := false; Perm := 420 |}
           Scenario.w0 eq_refl eq_refl).
Defined.

Lemma foldl_collect (disk : StatEnv) (paths acc : list string) :
  foldl (fun availableKeys keyPath =>
           match os_Stat disk keyPath with
           | Success _ => availableKeys ++ [keyPath]
           | Failure _ => availableKeys
           end) acc paths
  = acc ++ List.filter (stat_ok disk) paths.
Proof.
  revert acc. induction paths as [|p paths IH]; intros acc; simpl.
  - by rewrite app_nil_r.
  - rewrite IH. unfold stat_ok at 2.
    destruct (os_Stat disk p); [|done]. by rewrite <- app_assoc.
Qed.

(** X10: [FindAvailableKeys] returns exactly those of the four common key
    paths (id_rsa, id_ed25519, id_ecdsa, id_dsa under the home directory's
    .ssh) on which [os.Stat] succeeds, in that order, and nothing when the
    home directory is unknown. *)
Theorem X10_find_available_keys (env : Env) (disk : StatEnv) (w : World) :
  fst (FindAvailableKeys env disk w)
  = List.filter (stat_ok disk)
      (match os_UserHomeDir env with
       | Success home =>
           (fun name => filepath_Join env (filepath_Join env home ".ssh") name)
           <$> ["id_rsa"; "id_ed25519"; "id_ecdsa"; "id_dsa"]
       | Failure _ => []
       end).
Proof.
  unfold FindAvailableKeys, ListCommonKeyPaths, bind, call.
  destruct (os_UserHomeDir env); cbn -[foldl]; [|done].
  by rewrite foldl_collect.
Qed.

(** ** The add-host form *)

Lemma validateAndCreateHost_fields (f : Main.formModel)
    (h : Main.Host) :
  Main.validateAndCreateHost f = Some (h, None) ->
  Main.Name h <> "" /\ Main.Host_ h <> "" /\ Main.User h <> ""
  /\ 1 <= Main.Port h <= 65535
  /\ Main.inputs f !! Main.nameInput = Some (Main.Name h)
  /\ Main.inputs f !! Main.hostInput = Some (Main.Host_ h)
  /\ Main.inputs f !! Main.userInput = Some (Main.User h)
  /\ (exists agent, Main.inputs f !! Main.sshAgentInput = Some agent
                    /\ Main.SSHAgent h = String.eqb agent "true")
  /\ Main.inputs f !! Main.identityFileInput = Some (Main.IdentityFile h)
  /\ Main.inputs f !! Main.identityPassphraseInput
     = Some (Main.IdentityPassphrase h)
  /\ Main.inputs f !! Main.keyringServiceInput = Some (Main.KeyringService h)
  /\ Main.inputs f !! Main.keyringAccountInput = Some (Main.KeyringAccount h)
  /\ Main.inputs f !! Main.passwordInput = Some (Main.Password h).
Proof.
  unfold Main.validateAndCreateHost, Main.Value, Main.invalid.
  intros H.
  destruct (Main.inputs f !! Main.nameInput) as [name|]; [|done].
  simpl in H. destruct (String.eqb_spec name ""); [done|].
  destruct (Main.inputs f !! Main.hostInput) as [host|]; [|done].
  simpl in H. destruct (String.eqb_spec host ""); [done|].
  destruct (Main.inputs f !! Main.userInput) as [user|]; [|done].
  simpl in H. destruct (String.eqb_spec user ""); [done|].
  destruct (Main.inputs f !! Main.portInput) as [portStr|]; [|done].
  simpl in H. destruct (Main.Atoi _) as [port|]; [|done].
  destruct (Z.ltb_spec port 1); [done|].
  destruct (Z.ltb_spec 65535 port); [done|]. simpl in H.
  destruct (Main.inputs f !! Main.sshAgentInput) as [agent|]; [|done].
  destruct (Main.inputs f !! Main.identityFileInput); [|done].
  destruct (Main.inputs f !! Main.identityPassphraseInput); [|done].
  destruct (Main.inputs f !! Main.keyringServiceInput); [|done].
  destruct (Main.inputs f !! Main.keyringAccountInput); [|done].
  destruct (Main.inputs f !! Main.passwordInput); [|done].
  simpl in H. injection H as <-. simpl.
  repeat split; try done; try lia. by exists agent.
Qed.

(** X11: every host that [validateAndCreateHost] accepts has a non-empty
    name, address and user and a port between 1 and 65535, and carries the
    values of the form's inputs; the agent flag is set exactly when its
    input reads "true". *)
Theorem X11_validated_host_is_well_formed (f : Main.formModel)
    (h : Main.Host) :
  Main.validateAndCreateHost f = Some (h, None) ->
  Main.Name h <> "" /\ Main.Host_ h <> "" /\ Main.User h <> ""
  /\ 1 <= Main.Port h <= 65535
  /\ Main.inputs f !! Main.nameInput = Some (Main.Name h)
  /\ Main.inputs f !! Main.hostInput = Some (Main.Host_ h)
  /\ Main.inputs f !! Main.userInput = Some (Main.User h)
  /\ (exists agent, Main.inputs f !! Main.sshAgentInput = Some agent
                    /\ Main.SSHAgent h = String.eqb agent "true")
  /\ Main.inputs f !! Main.identityFileInput = Some (Main.IdentityFile h)
  /\ Main.inputs f !! Main.identityPassphraseInput
     = Some (Main.IdentityPassphrase h)
  /\ Main.inputs f !! Main.keyringServiceInput = Some (Main.KeyringService h)
  /\ Main.inputs f !! Main.keyringAccountInput = Some (Main.KeyringAccount h)
  /\ Main.inputs f !! Main.passwordInput = Some (Main.Password h).
Proof. apply validateAndCreateHost_fields. Qed.

Lemma X11_validated_host_is_well_formed_witness :
  1 <= Main.Port
         {| Main.Name := "web"; Main.Host_ := "example.org";
            Main.Port := 2222; Main.User := "root"; Main.SSHAgent := true;
            Main.IdentityFile := ""; Main.IdentityPassphrase := "";
            Main.KeyringService := ""; Main.KeyringAccount := "";
            Main.Password := "" |} <= 65535.
Proof.
  apply (X11_validated_host_is_well_formed
           (Connect.form "web" "example.org" "2222" "root" "true"
              "" "" "" "" "")).
  reflexivity.
Defined.

(** Splits a list of known length into its elements. *)
Ltac ten_inputs l H :=
  do 10 (destruct l as [|? l]; [discriminate H|]);
  destruct l; [clear H|discriminate H].

(** X12: on a form of ten inputs [validateAndCreateHost] never panics, and
    when name, address and user are filled in and the port is left empty,
    the host is accepted with port 22. *)
Theorem X12_empty_port_defaults_to_22 (f : Main.formModel) :
  length (Main.inputs f) = 10%nat ->
  (exists r, Main.validateAndCreateHost f = Some r)
  /\ (forall name host user,
        Main.inputs f !! Main.nameInput = Some name -> name <> "" ->
        Main.inputs f !! Main.hostInput = Some host -> host <> "" ->
        Main.inputs f !! Main.userInput = Some user -> user <> "" ->
        Main.inputs f !! Main.portInput = Some "" ->
        exists h,
          Main.validateAndCreateHost f = Some (h, None)
          /\ Main.Port h = 22).
Proof.
  intros Hlen. destruct f as [l fi sub so]. simpl in Hlen.
  ten_inputs l Hlen.
  unfold Main.validateAndCreateHost, Main.Value, Main.invalid. simpl.
  split.
  - repeat case_match; eauto.
  - intros name host user [= ->] Hn [= ->] Hh [= ->] Hu [= ->].
    apply String.eqb_neq in Hn, Hh, Hu. rewrite Hn, Hh, Hu.
    eexists. split; reflexivity.
Qed.

Lemma X12_empty_port_defaults_to_22_witness :
  exists h,
    Main.validateAndCreateHost
      (Connect.form "web" "example.org" "" "root" "" "" "" "" "" "")
    = Some (h, None)
    /\ Main.Port h = 22.
Proof.
  refine (proj2 (X12_empty_port_defaults_to_22
                   (Connect.form "web" "example.org" "" "root" "" "" "" ""
                      "" "") eq_refl)
            "web" "example.org" "root" eq_refl _ eq_refl _ eq_refl _ eq_refl);
    discriminate.
Defined.

(** ** Connecting to a host without an authentication method *)

Lemma empty_bundle_yields env c :
  SSHAgent c = false -> IdentityFile c = "" ->
  KeyringService c = "" -> KeyringAccount c = "" -> Password c = "" ->
  yields (buildAuthMethods env c) [].
Proof.
  destruct c as [a i p s k pw]; simpl; intros -> -> -> -> -> w.
  world w; reflexivity.
Qed.

Lemma StartSession_empty_chain env host port user c w :
  yields (buildAuthMethods env c) [] ->
  exists err t,
    StartSession env host port user c w = (Some err, extend w t)
    /\ List.filter server_dial t
       = [EvNetDialTimeout "tcp" (address_of host port) 10].
Proof.
  intros Y.
  pose proof (Y {| fileLogger := fileLogger w; trace := [];
                   terminal := terminal w |}) as Hchain.
  unfold address_of.
  start_session env c w; simpl in Hchain; rewrite Hrun in Hchain;
    simpl in Hchain; subst chain; try discriminate;
    (do 2 eexists; split;
     [unfold extend; simpl; rewrite <- ?app_assoc; reflexivity|]);
    simpl; rewrite ?List.filter_app;
    rewrite ?(filter_source_nil _ _ Hsrc source_not_server_dial);
    reflexivity.
Qed.

(** X13: the form does not require an authentication method: a host
    entered with the agent input not "true" and the identity file, keyring
    and password inputs empty is accepted, and connecting to it always
    reports an error; the only connection made to the server is the
    reachability probe. *)
Theorem X13_host_without_auth_never_connects (f : Main.formModel)
    (h : Main.Host) (env : Env) (w : World) :
  Main.validateAndCreateHost f = Some (h, None) ->
  Main.inputs f !! Main.sshAgentInput <> Some "true" ->
  Main.inputs f !! Main.identityFileInput = Some "" ->
  Main.inputs f !! Main.keyringServiceInput = Some "" ->
  Main.inputs f !! Main.keyringAccountInput = Some "" ->
  Main.inputs f !! Main.passwordInput = Some "" ->
  exists err t,
    Connect.connect env h w = (Connect.errorMsg err, extend w t)
    /\ List.filter server_dial t
       = [EvNetDialTimeout "tcp"
            (address_of (Main.Host_ h) (Main.Port h)) 10].
Proof.
  intros Hv Hagent Hid Hsvc Hacct Hpw.
  apply validateAndCreateHost_fields in Hv.
  destruct Hv as (_ & _ & _ & _ & _ & _ & _ & (agent & Ha & Hflag)
                  & Hid' & _ & Hsvc' & Hacct' & Hpw').
  assert (yields (buildAuthMethods env (Connect.authConfigOf h)) []) as Y.
  { apply empty_bundle_yields; simpl; try congruence.
    rewrite Hflag. apply String.eqb_neq. congruence. }
  destruct (StartSession_empty_chain env (Main.Host_ h) (Main.Port h)
              (Main.User h) _ w Y) as (err & t & Hrun & Ht).
  exists err, t. split; [|done].
  unfold Connect.connect, bind. by rewrite Hrun.
Qed.

Lemma X13_host_without_auth_never_connects_witness :
  exists h err t,
    Main.validateAndCreateHost
      (Connect.form "web" "example.org" "" "root" "" "" "" "" "" "")
    = Some (h, None)
    /\ Connect.connect Scenario.env_ok h Scenario.w0
       = (Connect.errorMsg err, extend Scenario.w0 t).
Proof.
  eexists. 
  destruct (X13_host_without_auth_never_connects
              (Connect.form "web" "example.org" "" "root" "" "" "" "" "" "")
              _ Scenario.env_ok Scenario.w0 eq_refl
              ltac:(discriminate) eq_refl eq_refl eq_refl eq_refl)
    as (err & t & Hrun & _).
  exists err, t. split; [reflexivity|exact Hrun].
Defined.

(** ** Moving through the form *)

Lemma int_small z : - 2 ^ 63 <= z < 2 ^ 63 -> Main.int z = z.
Proof. intros Hz. unfold Main.int. rewrite Z.mod_small; lia. Qed.

(** Removes the wrap-around of [int] where the value is in range. *)
Ltac unwrap :=
  repeat match goal with
         | |- context [Main.int ?z] => rewrite (int_small z) by lia
         | H : context [Main.int ?z] |- _ => rewrite (int_small z) in H by lia
         end.

Lemma navigate_focus (s : string) (availHeight : Z) (f : Main.formModel) :
  let n := Z.of_nat (length (Main.inputs f)) in
  n < 2 ^ 62 ->
  0 <= Main.focusIndex f < n ->
  Main.focusIndex (Main.navigate s availHeight f)
  = (if moves_up s then Main.focusIndex f - 1 else Main.focusIndex f + 1)
    mod n.
Proof.
  intros n Hn Hfi. subst n. unfold Main.navigate, moves_up. simpl.
  set (n := Z.of_nat (length (Main.inputs f))) in *.
  set (fi := Main.focusIndex f) in *.
  destruct (String.eqb s "up" || String.eqb s "shift+tab"); unwrap.
  - destruct (Z.ltb_spec (n - 1) (fi - 1)); [lia|].
    destruct (Z.ltb_spec (fi - 1) 0).
    + assert (fi = 0) as -> by lia.
      apply (Z.mod_unique_pos _ _ (-1)); lia.
    + by rewrite Z.mod_small by lia.
  - destruct (Z.ltb_spec (n - 1) (fi + 1)).
    + assert (fi + 1 = n) as -> by lia. by rewrite Z.mod_same by lia.
    + destruct (Z.ltb_spec (fi + 1) 0); [lia|].
      by rewrite Z.mod_small by lia.
Qed.

(** X14: the navigation keys keep the focus on an existing input and wrap
    around: "up" and "shift+tab" move to the previous input modulo the
    number of inputs, every other navigation key to the next one; the
    inputs themselves are untouched, and moving down and then up returns
    to the input one started from. *)
Theorem X14_focus_wraps_around (s : string) (availHeight : Z)
    (f : Main.formModel) :
  let n := Z.of_nat (length (Main.inputs f)) in
  n < 2 ^ 62 ->
  0 <= Main.focusIndex f < n ->
  let f' := Main.navigate s availHeight f in
  Main.focusIndex f'
  = (if moves_up s then Main.focusIndex f - 1 else Main.focusIndex f + 1)
    mod n
  /\ 0 <= Main.focusIndex f' < n
  /\ Main.inputs f' = Main.inputs f
  /\ (forall a1 a2,
        Main.focusIndex
          (Main.navigate "up" a2 (Main.navigate "down" a1 f))
        = Main.focusIndex f).
Proof.
  intros n Hn Hfi f'. subst f'.
  pose proof (navigate_focus s availHeight f Hn Hfi) as Hs.
  split; [exact Hs|]. split; [|split; [done|]].
  - rewrite Hs. apply Z.mod_pos_bound. lia.
  - intros a1 a2.
    pose proof (navigate_focus "down" a1 f Hn Hfi) as Hd.
    assert (0 <= Main.focusIndex (Main.navigate "down" a1 f) < n) as Hb.
    { rewrite Hd. apply Z.mod_pos_bound. lia. }
    rewrite (navigate_focus "up" a2 (Main.navigate "down" a1 f)) by done.
    rewrite Hd. change (moves_up "up") with true.
    change (moves_up "down") with false. cbv iota.
    change (length (Main.inputs (Main.navigate "down" a1 f)))
      with (length (Main.inputs f)). fold n.
    rewrite Zminus_mod_idemp_l.
    replace (Main.focusIndex f + 1 - 1) with (Main.focusIndex f) by lia.
    apply Z.mod_small. lia.
Qed.

Lemma X14_focus_wraps_around_witness :
  Main.focusIndex (Main.navigate "up" 20 Main.newFormModel) = 9.
Proof.
  refine (eq_trans (proj1 (X14_focus_wraps_around "up" 20 Main.newFormModel
                             _ _)) _);
    [reflexivity | simpl; lia | reflexivity].
Defined.

Lemma focusedLine_bounds (fi : Z) :
  0 <= fi < 2 ^ 40 ->
  4 * fi <= Main.focusedLine fi <= 4 * fi + 8.
Proof.
  intros Hfi. unfold Main.focusedLine, Main.sshAgentInput,
    Main.identityFileInput, Main.keyringServiceInput, Main.passwordInput.
  cbv zeta.
  repeat match goal with
         | |- context [?a <=? fi] => destruct (Z.leb_spec a fi)
         end;
    unwrap; lia.
Qed.

Lemma calculateScrollOffset_window (f : Main.formModel)
    (availHeight : Z) :
  0 <= Main.focusIndex f < 2 ^ 40 ->
  0 <= Main.scrollOffset f < 2 ^ 62 ->
  - 2 ^ 62 < availHeight < 2 ^ 62 ->
  let offset := Main.calculateScrollOffset f availHeight in
  0 <= offset
  /\ (4 <= availHeight ->
      offset <= Main.focusedLine (Main.focusIndex f) < offset + availHeight).
Proof.
  intros Hfi Hso Hav offset. subst offset.
  pose proof (focusedLine_bounds _ Hfi) as Hline.
  unfold Main.calculateScrollOffset. cbv zeta.
  set (line := Main.focusedLine (Main.focusIndex f)) in *.
  set (so := Main.scrollOffset f) in *.
  unwrap.
  destruct (Z.ltb_spec line (so + 3)); [lia|].
  destruct (Z.ltb_spec (so + availHeight - 3) line); unwrap; lia.
Qed.

(** X15: for a focus index and a current scroll offset that are not
    negative, the offset [calculateScrollOffset] returns is not negative,
    whatever the available height it is given; and when that height is at
    least four, the line the function itself computes for the focused
    input (four lines per input plus the header lines before it) lies
    between the returned offset and the offset plus that height.  The
    height is the one the function reads from [renderFormHelp], before
    [renderForm] takes the title off it, and the line is the function's
    estimate: the statement is about these two numbers, not about the
    lines [renderForm] draws. *)
Theorem X15_scroll_offset_keeps_focus_visible (f : Main.formModel)
    (availHeight : Z) :
  0 <= Main.focusIndex f < 2 ^ 40 ->
  0 <= Main.scrollOffset f < 2 ^ 62 ->
  - 2 ^ 62 < availHeight < 2 ^ 62 ->
  let offset := Main.calculateScrollOffset f availHeight in
  0 <= offset
  /\ (4 <= availHeight ->
      offset <= Main.focusedLine (Main.focusIndex f) < offset + availHeight).
Proof. apply calculateScrollOffset_window. Qed.

Lemma X15_scroll_offset_keeps_focus_visible_witness :
  0 <= Main.calculateScrollOffset
         {| Main.inputs := replicate 10 ""; Main.focusIndex := 9;
            Main.submitting := false; Main.scrollOffset := 0 |} (-7)
  /\ Main.calculateScrollOffset
       {| Main.inputs := replicate 10 ""; Main.focusIndex := 9;
          Main.submitting := false; Main.scrollOffset := 0 |} 10
     <= Main.focusedLine 9
     < Main.calculateScrollOffset
         {| Main.inputs := replicate 10 ""; Main.focusIndex := 9;
            Main.submitting := false; Main.scrollOffset := 0 |} 10 + 10.
Proof.
  split.
  - apply (X15_scroll_offset_keeps_focus_visible
             {| Main.inputs := replicate 10 ""; Main.focusIndex := 9;
                Main.submitting := false; Main.scrollOffset := 0 |} (-7));
      simpl; lia.
  - apply (X15_scroll_offset_keeps_focus_visible
             {| Main.inputs := replicate 10 ""; Main.focusIndex := 9;
                Main.submitting := false; Main.scrollOffset := 0 |} 10);
      simpl; lia.
Defined.

(** ** The visible part of the form *)

Lemma slice_in_bounds {A} (lines : list A) (low high : Z) :
  0 <= low <= high -> high <= Z.of_nat (length lines) ->
  Main.slice lines low high
  = Some (take (Z.to_nat (high - low)) (drop (Z.to_nat low) lines)).
Proof.
  intros H1 H2. unfold Main.slice.
  destruct (Z.leb_spec 0 low); [|lia].
  destruct (Z.leb_spec low high); [|lia].
  destruct (Z.leb_spec high (Z.of_nat (length lines))); [done|lia].
Qed.

Lemma slice_out_of_bounds {A} (lines : list A) (low high : Z) :
  low < 0 \/ high < low -> Main.slice lines low high = None.
Proof.
  intros H. unfold Main.slice.
  destruct (Z.leb_spec 0 low); [|done].
  destruct (Z.leb_spec low high); [lia|done].
Qed.

Lemma getVisibleFormLines_window (f : Main.formModel) (lines : list string)
    (availHeight : Z) :
  let len := Z.of_nat (length lines) in
  0 <= Main.scrollOffset f < 2 ^ 62 ->
  0 <= availHeight < 2 ^ 62 ->
  len < 2 ^ 62 ->
  0 <= window_start f len availHeight
  /\ Main.getVisibleFormLines f lines availHeight
     = Some (take (Z.to_nat availHeight)
               (drop (Z.to_nat (window_start f len availHeight)) lines)).
Proof.
  intros len Hso Hav Hlen. unfold Main.getVisibleFormLines, window_start.
  cbv zeta. subst len. set (so := Main.scrollOffset f) in *.
  destruct (Z.leb_spec (Z.of_nat (length lines)) availHeight).
  - split; [lia|]. change (Z.to_nat 0) with 0%nat. rewrite drop_0.
    rewrite take_ge; [done|]. lia.
  - destruct (Z.leb_spec (Z.of_nat (length lines)) so); unwrap.
    + split; [lia|]. rewrite Z.max_r by lia.
      rewrite slice_in_bounds by lia. do 2 f_equal. lia.
    + split; [lia|]. rewrite slice_in_bounds by lia. f_equal.
      destruct (Z.le_ge_cases (so + availHeight)
                  (Z.of_nat (length lines))).
      * f_equal. lia.
      * rewrite !take_ge; [done| |]; rewrite length_drop; lia.
Qed.

(** X16: with a scroll offset and an available height that are not
    negative, [getVisibleFormLines] does not panic and returns the window
    of at most [availHeight] lines that starts at line 0 when the form
    fits, at the scroll offset when that is inside the form, and
    [availHeight] lines before the end otherwise. *)
Theorem X16_visible_form_lines_window (f : Main.formModel)
    (lines : list string) (availHeight : Z) :
  let len := Z.of_nat (length lines) in
  0 <= Main.scrollOffset f < 2 ^ 62 ->
  0 <= availHeight < 2 ^ 62 ->
  len < 2 ^ 62 ->
  0 <= window_start f len availHeight
  /\ Main.getVisibleFormLines f lines availHeight
     = Some (take (Z.to_nat availHeight)
               (drop (Z.to_nat (window_start f len availHeight)) lines)).
Proof. apply getVisibleFormLines_window. Qed.

Lemma X16_visible_form_lines_window_witness :
  Main.getVisibleFormLines
    {| Main.inputs := replicate 10 ""; Main.focusIndex := 1;
       Main.submitting := false; Main.scrollOffset := 1 |}
    ["a"; "b"; "c"; "d"] 2
  = Some ["b"; "c"].
Proof.
  refine (proj2 (X16_visible_form_lines_window
                   {| Main.inputs := replicate 10 ""; Main.focusIndex := 1;
                      Main.submitting := false; Main.scrollOffset := 1 |}
                   ["a"; "b"; "c"; "d"] 2 _ _ _));
    simpl; lia.
Defined.

(** X18: [getVisibleDeleteLines] returns the first [availHeight] lines (all
    of them when there are fewer) for an available height that is not
    negative, and panics with slice bounds out of range for a negative
    one. *)
Theorem X18_visible_delete_lines (lines : list string) (availHeight : Z) :
  (0 <= availHeight ->
   Main.getVisibleDeleteLines lines availHeight
   = Some (take (Z.to_nat availHeight) lines))
  /\ (availHeight < 0 -> Main.getVisibleDeleteLines lines availHeight = None).
Proof.
  unfold Main.getVisibleDeleteLines. cbv zeta. split; intros Hav.
  - destruct (Z.leb_spec (Z.of_nat (length lines)) availHeight).
    + rewrite take_ge; [done|]. lia.
    + rewrite Z.min_l by lia. rewrite slice_in_bounds by lia.
      change (Z.to_nat 0) with 0%nat. rewrite drop_0.
      do 2 f_equal. lia.
  - destruct (Z.leb_spec (Z.of_nat (length lines)) availHeight); [lia|].
    apply slice_out_of_bounds. lia.
Qed.

Lemma X18_visible_delete_lines_witness :
  Main.getVisibleDeleteLines ["a"; "b"; "c"] 2 = Some ["a"; "b"]
  /\ Main.getVisibleDeleteLines ["a"; "b"; "c"] (-1) = None.
Proof.
  split.
  - apply (proj1 (X18_visible_delete_lines ["a"; "b"; "c"] 2)). lia.
  - apply (proj2 (X18_visible_delete_lines ["a"; "b"; "c"] (-1))). lia.
Defined.

(** X19: with a negative available height [getVisibleFormLines] panics
    with slice bounds out of range, whatever the lines and the (not
    negative) scroll offset. *)
Theorem X19_visible_form_lines_negative_height (f : Main.formModel)
    (lines : list string) (availHeight : Z) :
  - 2 ^ 62 < availHeight < 0 ->
  0 <= Main.scrollOffset f < 2 ^ 62 ->
  Z.of_nat (length lines) < 2 ^ 62 ->
  Main.getVisibleFormLines f lines availHeight = None.
Proof.
  intros Hav Hso Hlen. unfold Main.getVisibleFormLines. cbv zeta.
  destruct (Z.leb_spec (Z.of_nat (length lines)) availHeight); [lia|].
  destruct (Z.leb_spec (Z.of_nat (length lines)) (Main.scrollOffset f));
    unwrap; apply slice_out_of_bounds; lia.
Qed.

Lemma X19_visible_form_lines_negative_height_witness :
  Main.getVisibleFormLines Main.newFormModel ["a"; "b"; "c"] (-1) = None.
Proof.
  apply (X19_visible_form_lines_negative_height Main.newFormModel
           ["a"; "b"; "c"] (-1)); simpl; lia.
Defined.

(** ** The configuration file *)

Lemma remove_index {A} (l : list A) (i : Z) :
  0 <= i < Z.of_nat (length l) -> Z.of_nat (length l) < 2 ^ 63 ->
  take (Z.to_nat i) l ++ drop (Z.to_nat (Main.int (i + 1))) l
  = delete (Z.to_nat i) l.
Proof.
  intros Hi Hlen. rewrite int_small by lia.
  replace (Z.to_nat (i + 1)) with (S (Z.to_nat i)) by lia.
  symmetry. apply delete_take_drop.
Qed.

Lemma deleteHostFromConfig_run {Files} (sys : Config.Sys Files)
    (path data : string) (config : Config.Configuration) (i : Z)
    (files : Files) :
  Config.ReadFile sys files path = Success data ->
  Config.Unmarshal sys data = Success config ->
  Z.of_nat (length (Config.Hosts config)) < 2 ^ 63 ->
  (i < 0 \/ Z.of_nat (length (Config.Hosts config)) <= i ->
   Config.deleteHostFromConfig sys path i files
   = (Some (errorString "invalid host index"), files))
  /\ (forall json,
        0 <= i < Z.of_nat (length (Config.Hosts config)) ->
        Config.MarshalIndent sys
          (with_hosts config (delete (Z.to_nat i) (Config.Hosts config)))
        = Success json ->
        Config.deleteHostFromConfig sys path i files
        = written sys files path json).
Proof.
  intros Hread Hparse Hlen. unfold Config.deleteHostFromConfig.
  rewrite Hread, Hparse. split.
  - intros Hi.
    destruct (Z.ltb_spec i 0); [done|].
    destruct (Z.leb_spec (Z.of_nat (length (Config.Hosts config))) i);
      [done|lia].
  - intros json Hi Hjson.
    destruct (Z.ltb_spec i 0); [lia|].
    destruct (Z.leb_spec (Z.of_nat (length (Config.Hosts config))) i);
      [lia|]. simpl.
    unfold Config.writeConfig. rewrite remove_index by done.
    unfold with_hosts in Hjson. by rewrite Hjson.
Qed.

(** X20: [deleteHostFromConfig] refuses an index outside the host list
    with "invalid host index" and leaves the files alone; for an index
    inside it, the only thing it writes is the configuration with exactly
    that host removed (the other hosts in their order, the folders as they
    were). *)
Theorem X20_delete_removes_exactly_one_host {Files} (sys : Config.Sys Files)
    (path data : string) (config : Config.Configuration) (i : Z)
    (files : Files) :
  Config.ReadFile sys files path = Success data ->
  Config.Unmarshal sys data = Success config ->
  Z.of_nat (length (Config.Hosts config)) < 2 ^ 63 ->
  (i < 0 \/ Z.of_nat (length (Config.Hosts config)) <= i ->
   Config.deleteHostFromConfig sys path i files
   = (Some (errorString "invalid host index"), files))
  /\ (forall json,
        0 <= i < Z.of_nat (length (Config.Hosts config)) ->
        Config.MarshalIndent sys
          (with_hosts config (delete (Z.to_nat i) (Config.Hosts config)))
        = Success json ->
        Config.deleteHostFromConfig sys path i files
        = written sys files path json).
Proof. apply deleteHostFromConfig_run. Qed.

Lemma X20_delete_removes_exactly_one_host_witness :
  Config.deleteHostFromConfig ConfigScenario.sys "config.json" 1 (Some "two")
  = (None, Some "one")
  /\ Config.deleteHostFromConfig ConfigScenario.sys "config.json" 2
       (Some "two")
     = (Some (errorString "invalid host index"), Some "two").
Proof.
  destruct (X20_delete_removes_exactly_one_host ConfigScenario.sys
              "config.json" "two" ConfigScenario.two 1 (Some "two")
              eq_refl eq_refl ltac:(simpl; lia)) as [_ Hok].
  destruct (X20_delete_removes_exactly_one_host ConfigScenario.sys
              "config.json" "two" ConfigScenario.two 2 (Some "two")
              eq_refl eq_refl ltac:(simpl; lia)) as [Hbad _].
  split.
  - rewrite (Hok "one"); [reflexivity | simpl; lia | reflexivity].
  - apply Hbad. simpl. lia.
Defined.

(** X21: saving a host and then deleting the last index undoes the
    addition: when the saved file reads back and parses to what was
    written, [deleteHostFromConfig] at the index of the new host writes the
    configuration the file held before [saveHostToConfig]. *)
Theorem X21_save_then_delete_restores {Files} (sys : Config.Sys Files)
    (path data json1 json : string) (config : Config.Configuration)
    (newHost : Main.Host) (files files1 : Files) :
  Config.ReadFile sys files path = Success data ->
  Config.Unmarshal sys data = Success config ->
  Z.of_nat (length (Config.Hosts config)) < 2 ^ 62 ->
  Config.MarshalIndent sys
    (with_hosts config (Config.Hosts config ++ [newHost])) = Success json1 ->
  Config.WriteFile sys files path json1 = (None, files1) ->
  Config.ReadFile sys files1 path = Success json1 ->
  Config.Unmarshal sys json1
  = Success (with_hosts config (Config.Hosts config ++ [newHost])) ->
  Config.MarshalIndent sys config = Success json ->
  Config.saveHostToConfig sys path newHost files = (None, files1)
  /\ Config.deleteHostFromConfig sys path
       (Z.of_nat (length (Config.Hosts config))) files1
     = written sys files1 path json.
Proof.
  intros Hread Hparse Hlen Hjson1 Hwrite Hread1 Hparse1 Hjson. split.
  - unfold Config.saveHostToConfig, Config.writeConfig.
    rewrite Hread, Hparse. simpl. unfold with_hosts in Hjson1.
    by rewrite Hjson1, Hwrite.
  - apply (proj2 (deleteHostFromConfig_run sys path json1 _
                    (Z.of_nat (length (Config.Hosts config))) files1
                    Hread1 Hparse1
                    ltac:(simpl; rewrite length_app; simpl; lia))).
    + simpl. rewrite length_app. simpl. lia.
    + simpl. rewrite Nat2Z.id.
      replace (delete (length (Config.Hosts config))
                 (Config.Hosts config ++ [newHost]))
        with (Config.Hosts config).
      * destruct config. exact Hjson.
      * rewrite delete_take_drop, take_app_length.
        rewrite drop_ge by (rewrite length_app; simpl; lia).
        by rewrite app_nil_r.
Qed.

Lemma X21_save_then_delete_restores_witness :
  Config.saveHostToConfig ConfigScenario.sys "config.json"
    ConfigScenario.db (Some "one") = (None, Some "two")
  /\ Config.deleteHostFromConfig ConfigScenario.sys "config.json" 1
       (Some "two") = (None, Some "one").
Proof.
  exact (X21_save_then_delete_restores ConfigScenario.sys "config.json"
           "one" "two" "one" ConfigScenario.one ConfigScenario.db
           (Some "one") (Some "two")
           eq_refl eq_refl ltac:(simpl; lia) eq_refl eq_refl eq_refl eq_refl
           eq_refl).
Defined.

(** ** The delete confirmation *)

(** X22: the delete confirmation is left exactly on its five keys: "y",
    "Y", "n", "N" and "esc" return to the list view and forget the host to
    delete, every other key changes nothing.  Cancelling touches neither
    the files nor the hosts.  Confirming either ends with an error shown
    and the hosts of the model unchanged, or with the hosts and the list
    replaced by what the configuration file holds after the deletion,
    together with the command that refreshes the window size. *)
Theorem X22_delete_confirm_outcomes {Files} (sys : Config.Sys Files)
    (m : Config.Model) (msg : string) (files : Files) :
  let '(m', cmd, files') := Config.updateDeleteConfirm sys m msg files in
  (confirm_key msg || cancel_key msg = true ->
   Config.view m' = Config.listView /\ Config.hostToDelete m' = None)
  /\ (confirm_key msg || cancel_key msg = false ->
      m' = m /\ cmd = Config.noCmd /\ files' = files)
  /\ (confirm_key msg = false ->
      files' = files /\ Config.hosts m' = Config.hosts m
      /\ Config.err m' = Config.err m /\ cmd = Config.noCmd)
  /\ (confirm_key msg = true ->
      (cmd = Config.noCmd /\ Config.showErr m' = true
       /\ Config.err m' <> None /\ Config.hosts m' = Config.hosts m
       /\ Config.list_ m' = Config.list_ m)
      \/ (cmd = Config.windowSizeCmd
          /\ fst (Config.deleteHostFromConfig sys (Config.configPath m)
                    (Config.hostToDeleteIndex m) files) = None
          /\ exists data config,
               Config.ReadFile sys files' (Config.configPath m) = Success data
               /\ Config.Unmarshal sys data = Success config
               /\ Config.hosts m' = Config.Hosts config
               /\ Config.list_ m' = Config.Hosts config
               /\ Config.err m' = Config.err m
               /\ Config.showErr m' = Config.showErr m)).
Proof.
  unfold Config.updateDeleteConfirm, confirm_key, cancel_key.
  destruct (String.eqb msg "y" || String.eqb msg "Y") eqn:Hy.
  - destruct (Config.deleteHostFromConfig sys _ _ files) as [[e|] files1];
      simpl.
    + repeat split; try done. left. repeat split; done.
    + destruct (Config.ReadFile sys files1 _) as [data|e] eqn:Hr; simpl.
      * destruct (Config.Unmarshal sys data) as [config|e] eqn:Hp; simpl.
        -- repeat split; try done. right. repeat split; try done.
           by exists data, config.
        -- repeat split; try done. left. repeat split; done.
      * repeat split; try done. left. repeat split; done.
  - destruct (_ || String.eqb msg "esc") eqn:Hn; simpl;
      repeat split; try done.
Qed.

Lemma X22_delete_confirm_outcomes_witness :
  Config.updateDeleteConfirm ConfigScenario.sys ConfigScenario.model "y"
    (Some "two")
  = ({| Config.list_ := [ConfigScenario.web];
        Config.hosts := [ConfigScenario.web];
        Config.err := None; Config.showErr := false;
        Config.view := Config.listView; Config.form := Main.newFormModel;
        Config.configPath := "config.json"; Config.hostToDelete := None;
        Config.hostToDeleteIndex := 1; Config.width := 80;
        Config.height := 24; Config.connectHost := None |},
     Config.windowSizeCmd, Some "one").
Proof.
  pose proof (X22_delete_confirm_outcomes ConfigScenario.sys
                ConfigScenario.model "y" (Some "two")) as H.
  destruct (Config.updateDeleteConfirm ConfigScenario.sys
              ConfigScenario.model "y" (Some "two")) as [[m' cmd] files']
    eqn:E.
  destruct H as ((Hview & Hdel) & _ & _ & _); [reflexivity|].
  vm_compute in E. by injection E as <- <- <-.
Defined.

(** ** When a session succeeds *)

(** X6: [StartSession] returns nil exactly when every step succeeded: the
    probe, a non-empty chain, the SSH dial, the session, raw mode, the PTY
    request and the shell; it then has waited for the shell and run its
    three clean-ups, the terminal restoration first and the connection
    last.  Any failing step yields an error. *)
Theorem X6_session_succeeds_iff_all_steps (env : Env) (host : string)
    (port : Z) (user : string) (c : AuthConfig)
    (chain : list ssh.AuthMethod) (w : World) :
  yields (buildAuthMethods env c) chain ->
  (fst (StartSession env host port user c w) = None
   <-> all_steps_succeed env host port user chain)
  /\ (fst (StartSession env host port user c w) = None ->
      [EvShell; EvWait; EvRestore (terminal w); EvSessionClose;
       EvClientClose]
        `suffix_of` trace (snd (StartSession env host port user c w))).
Proof.
  intros Y.
  pose proof (Y {| fileLogger := fileLogger w; trace := [];
                   terminal := terminal w |}) as Hchain.
  unfold all_steps_succeed, pty_size, address_of.
  start_session env c w; simpl in Hchain; rewrite Hrun in Hchain;
    simpl in Hchain; subst chain0;
    repeat match goal with
           | H : term_GetSize env = _ |- _ => rewrite H
           | H : (length ?l =? 0)%nat = true |- _ =>
               apply Nat.eqb_eq, nil_length_inv in H; subst l
           | H : (length ?l =? 0)%nat = false |- _ =>
               assert (l <> []) by (intros ->; discriminate H); clear H
           end;
    simpl;
    (split;
     [split; [intros Hnil; try discriminate Hnil
             | intros Hall; decompose [and] Hall]
     |intros Hnil; try discriminate Hnil]);
    try done; try congruence;
    try (repeat split; congruence).
  all: rewrite <- ?app_assoc; simpl; suffix_tail.
Qed.

Lemma X6_session_succeeds_iff_all_steps_witness :
  fst (StartSession Scenario.env_ok "example.org" 22 "root"
         Scenario.cfg_password Scenario.w0) = None.
Proof.
  apply (proj1 (X6_session_succeeds_iff_all_steps Scenario.env_ok
                  "example.org" 22 "root" Scenario.cfg_password
                  [ssh.Password "pw"; ssh.KeyboardInteractive (challenge "pw")]
                  Scenario.w0
                  ltac:(intros w; world w; reflexivity))).
  repeat split; try reflexivity. discriminate.
Defined.

(** ** Submitting and editing the form *)

(** X23: [updateForm] touches the configuration file only when "enter" is
    pressed on a form that passes validation, and what it then saves is a
    host with a non-empty name, address and user and a port between 1 and
    65535; "esc" and "enter" always lead back to the list view. *)
Theorem X23_form_saves_only_valid_hosts {Files} (sys : Config.Sys Files)
    (availHeight : Z) (input_Update : string -> string -> string)
    (m m' : Config.Model) (msg : string) (cmd : Config.Cmd)
    (files files' : Files) :
  Config.updateForm sys availHeight input_Update m msg files
  = Some (m', cmd, files') ->
  (files' = files
   \/ (msg = "enter"
       /\ exists h,
            Main.validateAndCreateHost (Config.form m) = Some (h, None)
            /\ Main.Name h <> "" /\ Main.Host_ h <> "" /\ Main.User h <> ""
            /\ 1 <= Main.Port h <= 65535
            /\ files'
               = snd (Config.saveHostToConfig sys (Config.configPath m) h
                        files)))
  /\ (msg = "esc" \/ msg = "enter" -> Config.view m' = Config.listView).
Proof.
  unfold Config.updateForm. intros H.
  destruct (String.eqb_spec msg "esc") as [->|Hesc].
  { injection H as <- <- <-. split; [by left|done]. }
  destruct (String.eqb msg "tab" || String.eqb msg "shift+tab"
            || String.eqb msg "up" || String.eqb msg "down") eqn:Hnav.
  { injection H as <- <- <-. split; [by left|].
    intros [->| ->]; [done|discriminate Hnav]. }
  destruct (String.eqb_spec msg "enter") as [->|Henter].
  - destruct (Main.validateAndCreateHost (Config.form m)) as [[h [e|]]|]
      eqn:Hv; simpl in H; [| |done].
    { injection H as <- <- <-. split; [by left|done]. }
    pose proof (validateAndCreateHost_fields _ _ Hv)
      as (Hn & Hh & Hu & Hp & _).
    destruct (Config.saveHostToConfig sys (Config.configPath m) h files)
      as [[e|] files1] eqn:Hs.
    { injection H as <- <- <-. split; [|done]. right.
      split; [done|]. exists h. by rewrite Hs. }
    assert (files' = files1 /\ Config.view m' = Config.listView) as [-> Hview].
    { destruct (Config.ReadFile sys files1 _) as [data|e]; simpl in H.
      - destruct (Config.Unmarshal sys data) as [config|e];
          by injection H as <- <- <-.
      - by injection H as <- <- <-. }
    split; [|done]. right. split; [done|]. exists h. by rewrite Hs.
  - destruct (Main.focusIndex (Config.form m) <? 0); [done|].
    destruct (Main.inputs (Config.form m) !! _); simpl in H; [|done].
    injection H as <- <- <-. split; [by left|]. intros [|]; done.
Qed.

Lemma X23_form_saves_only_valid_hosts_witness :
  exists m',
    Config.updateForm ConfigScenario.sys 20 (fun v _ => v)
      (Config.with_form ConfigScenario.model
         (Connect.form "db" "10.0.0.2" "2222" "admin" "" "" "" "" "" "pw"))
      "enter" (Some "one")
    = Some (m', Config.windowSizeCmd, Some "two")
    /\ Config.view m' = Config.listView.
Proof.
  eexists. split; [reflexivity|].
  apply (proj2 (X23_form_saves_only_valid_hosts ConfigScenario.sys 20
                  (fun v _ => v)
                  (Config.with_form ConfigScenario.model
                     (Connect.form "db" "10.0.0.2" "2222" "admin" "" "" ""
                        "" "" "pw"))
                  _ "enter" Config.windowSizeCmd (Some "one") (Some "two")
                  eq_refl)).
  by right.
Defined.

(** X24: a key that [updateForm] does not handle itself only reaches the
    focused input: with the focus on an existing input, that input's value
    is replaced by what the input makes of the key and nothing else
    changes (the other inputs, the focus, the view, the hosts and the
    files); with the focus outside the inputs the update panics. *)
Theorem X24_typing_changes_only_focused_input {Files} (sys : Config.Sys Files)
    (availHeight : Z) (input_Update : string -> string -> string)
    (m : Config.Model) (msg : string) (files : Files) :
  form_key msg = false ->
  let f := Config.form m in
  let i := Main.focusIndex f in
  (forall value,
     0 <= i -> Main.inputs f !! Z.to_nat i = Some value ->
     exists m',
       Config.updateForm sys availHeight input_Update m msg files
       = Some (m', Config.inputCmd, files)
       /\ Main.inputs (Config.form m')
          = <[Z.to_nat i := input_Update value msg]> (Main.inputs f)
       /\ (forall j, j <> Z.to_nat i ->
             Main.inputs (Config.form m') !! j = Main.inputs f !! j)
       /\ length (Main.inputs (Config.form m')) = length (Main.inputs f)
       /\ Main.focusIndex (Config.form m') = i
       /\ Config.view m' = Config.view m
       /\ Config.hosts m' = Config.hosts m)
  /\ (i < 0 \/ Z.of_nat (length (Main.inputs f)) <= i ->
      Config.updateForm sys availHeight input_Update m msg files = None).
Proof.
  intros Hkey f i. unfold form_key in Hkey.
  apply orb_false_iff in Hkey as [Hkey Henter].
  apply orb_false_iff in Hkey as [Hesc Hnav].
  unfold Config.updateForm. rewrite Hesc, Hnav, Henter. fold f. fold i.
  split.
  - intros value Hi Hv. destruct (Z.ltb_spec i 0); [lia|].
    rewrite Hv. simpl. eexists. split; [reflexivity|]. simpl.
    repeat split; try done.
    + intros j Hj. by rewrite list_lookup_insert_ne.
    + by rewrite length_insert.
  - intros [Hi|Hi].
    + by destruct (Z.ltb_spec i 0); [|lia].
    + destruct (Z.ltb_spec i 0); [done|].
      rewrite (lookup_ge_None_2 (Main.inputs f) (Z.to_nat i)) by lia. done.
Qed.

Lemma X24_typing_changes_only_focused_input_witness :
  exists m',
    Config.updateForm ConfigScenario.sys 20 (fun v key => v +:+ key)
      ConfigScenario.model "a" (Some "two")
    = Some (m', Config.inputCmd, Some "two")
    /\ Main.inputs (Config.form m') = "a" :: replicate 9 "".
Proof.
  destruct (proj1 (X24_typing_changes_only_focused_input ConfigScenario.sys
                     20 (fun v key => v +:+ key) ConfigScenario.model "a"
                     (Some "two") eq_refl) "" ltac:(simpl; lia) eq_refl)
    as (m' & Hrun & Hinputs & _).
  exists m'. split; [exact Hrun|]. rewrite Hinputs. reflexivity.
Defined.
